(** * books-pipeline: the merge engine of [integrate_pipeline.py]

    A shallow embedding of the entity-resolution and merge engine
    ([normalize_*], [iso_date], [safe_decimal], [stable_hash_id],
    [choose_survivor], [merge_records] and the index / match / deduplicate
    part of [run_pipeline]) together with the properties stated about it.

    Conventions of the embedding.
    - A Python [str] is a Rocq [string] that holds the bytes of its UTF-8
      encoding; a lone surrogate, which a [str] can hold although it has no
      UTF-8 encoding, stands as the three bytes ED, A0..BF, 80..BF.  Slices
      and iteration go by characters, not by bytes.
    - The character classes used by [str.strip], [str.lower], [str.upper],
      [str.isdigit] and by the regular expressions ([\s], [\w], [\d]) are
      Python's on ASCII.  A character that is not ASCII is taken for a
      letter without case: no white space, no digit, a member of [\w], left
      alone by [lower] and [upper].  That is what Python does with the
      lower-case letters of other scripts; on the other characters beyond
      ASCII (upper-case letters, spaces, digits, punctuation) the embedding
      differs from Python, and what is proved about the characters of a
      result is stated for its ASCII characters.
    - A Python value ([Any]) is a [pyval]: [None], a string, an integer, a
      boolean, a float or a list of values; a float is an IEEE 754 value
      ([SpecFloat.spec_float]).
    - A record ([dict]) is a finite map from field names to values;
      [d.get(k)] is [get d k].  A frame is the list of the records it
      holds, with the values as pandas has typed them: reading the files
      into frames is not part of the embedding.
    - [str] and [repr] of an [int] of more than 4300 digits raise
      [ValueError] (CPython 3.11, [sys.get_int_max_str_digits()]).  The
      functions named [..._exc] are the normalizers with what they raise;
      the functions with the names of the source give their results.
    - What the code takes from outside the repository and what cannot be
      computed here is a member of the class [PyHost]: [repr] and parsing of
      floats, the optional [dateutil] parser and the row sort of pandas.
      SHA-1 is implemented in full, and so is the quicksort of NumPy that
      pandas sorts with by default. *)

From Stdlib Require Import ZArith String Ascii List Bool Lia SpecFloat.
From stdpp Require Import base option list gmap strings pretty sorting.

Local Open Scope string_scope.
Local Open Scope list_scope.
Local Open Scope Z_scope.

(** ** Characters and strings *)

Module Str.

Definition code (c : ascii) : Z := Z.of_N (N_of_ascii c).
Definition chr (z : Z) : ascii := ascii_of_N (Z.to_N z).

(** [str.isspace] on one character (ASCII range): tab, line feed, vertical
    tab, form feed, carriage return, the four separators 0x1c-0x1f and the
    blank.  The class [\s] of [re] is the same set. *)
Definition is_space (c : ascii) : bool :=
  let n := code c in
  ((9 <=? n) && (n <=? 13)) || ((28 <=? n) && (n <=? 32)).

Definition is_digit (c : ascii) : bool :=
  let n := code c in (48 <=? n) && (n <=? 57).

Definition is_upper (c : ascii) : bool :=
  let n := code c in (65 <=? n) && (n <=? 90).

Definition is_lower (c : ascii) : bool :=
  let n := code c in (97 <=? n) && (n <=? 122).

(** The ASCII members of the class [\w]: letters, digits and the
    underscore. *)
Definition is_word (c : ascii) : bool :=
  is_upper c || is_lower c || is_digit c || (code c =? 95).

(** The bytes of UTF-8: an ASCII character, and a continuation byte
    (10xxxxxx).  A character is a byte that is no continuation byte with
    the continuation bytes that follow it. *)
Definition is_ascii (c : ascii) : bool := code c <? 128.
Definition is_cont (c : ascii) : bool :=
  let n := code c in (128 <=? n) && (n <? 192).

Definition lower_char (c : ascii) : ascii :=
  if is_upper c then chr (code c + 32) else c.

Definition upper_char (c : ascii) : ascii :=
  if is_lower c then chr (code c - 32) else c.

Definition chars (s : string) : list ascii := list_ascii_of_string s.
Definition of_chars (l : list ascii) : string := string_of_list_ascii l.

Fixpoint drop_while {A} (p : A -> bool) (l : list A) : list A :=
  match l with
  | [] => []
  | x :: l' => if p x then drop_while p l' else l
  end.

(** [s.strip()] *)
Definition strip (s : string) : string :=
  of_chars (rev (drop_while is_space (rev (drop_while is_space (chars s))))).

(** [s.lower()], [s.upper()] *)
Definition lower (s : string) : string := of_chars (map lower_char (chars s)).
Definition upper (s : string) : string := of_chars (map upper_char (chars s)).

(** [s.isdigit()]: at least one character and digits only. *)
Definition isdigit (s : string) : bool :=
  match chars s with
  | [] => false
  | l => forallb is_digit l
  end.

(** [s.endswith(t)] *)
Fixpoint starts_with (p l : list ascii) : bool :=
  match p, l with
  | [], _ => true
  | _ :: _, [] => false
  | a :: p', b :: l' => if Ascii.eqb a b then starts_with p' l' else false
  end.

Definition endswith (s t : string) : bool :=
  starts_with (rev (chars t)) (rev (chars s)).

(** [s[:-n]], where it is used the last [n] characters are ASCII *)
Definition drop_last (n : nat) (s : string) : string :=
  of_chars (take (length (chars s) - n)%nat (chars s)).

(** [s[:n]]: the first [n] characters, each with its continuation bytes *)
Fixpoint take_points (n : nat) (l : list ascii) : list ascii :=
  match l with
  | [] => []
  | c :: l' =>
      if is_cont c then c :: take_points n l'
      else
        match n with
        | O => []
        | S n' => c :: take_points n' l'
        end
  end.

Definition prefix (n : nat) (s : string) : string :=
  of_chars (take_points n (chars s)).

(** [len(s)] *)
Definition char_count (s : string) : nat :=
  length (filter (fun c => negb (is_cont c)) (chars s)).

(** [for c in s]: the characters of a text, one by one.  [cur] holds the
    bytes of the current character, reversed. *)
Fixpoint points_go (cur : list ascii) (l : list ascii) : list string :=
  match l with
  | [] =>
      match cur with
      | [] => []
      | _ => [of_chars (rev cur)]
      end
  | c :: l' =>
      if is_cont c then points_go (c :: cur) l'
      else
        match cur with
        | [] => points_go [c] l'
        | _ => of_chars (rev cur) :: points_go [c] l'
        end
  end.

Definition points (s : string) : list string := points_go [] (chars s).

(** A text with a lone surrogate (U+D800 to U+DFFF: the byte ED followed
    by one of A0..BF) has no UTF-8 encoding: [s.encode("utf-8")] raises. *)
Fixpoint has_surrogate (l : list ascii) : bool :=
  match l with
  | [] => false
  | a :: l' =>
      match l' with
      | b :: _ => ((code a =? 237) && (160 <=? code b) && (code b <? 192))
                  || has_surrogate l'
      | [] => false
      end
  end.

Definition encodable (s : string) : bool := negb (has_surrogate (chars s)).

(** [c in s] for a one-character [c] *)
Definition contains (c : ascii) (s : string) : bool :=
  existsb (Ascii.eqb c) (chars s).

(** [s.replace(a, b)] for one-character [a] and [b] *)
Definition replace_char (a b : ascii) (s : string) : string :=
  of_chars (map (fun c => if Ascii.eqb c a then b else c) (chars s)).

(** [re.sub(r"\s+", " ", s)]: every maximal run of white space becomes one
    blank.  [in_run] tells that the previous character was white space. *)
Fixpoint collapse_go (in_run : bool) (l : list ascii) : list ascii :=
  match l with
  | [] => []
  | c :: l' =>
      if is_space c
      then (if in_run then collapse_go true l' else " "%char :: collapse_go true l')
      else c :: collapse_go false l'
  end.

Definition collapse_ws (s : string) : string :=
  of_chars (collapse_go false (chars s)).

(** [re.sub(r"[^\w\s]", "", s)]: of the ASCII characters the members of
    [\w] and [\s] stay; the characters beyond ASCII stay, as letters do. *)
Definition drop_punct (s : string) : string :=
  of_chars (filter (fun c => is_word c || is_space c || negb (is_ascii c)) (chars s)).

(** Splitting at every character of a class: [re.split(r"[|,;]", s)] and
    [s.split("|")].  [cur] is the current piece, reversed. *)
Fixpoint split_go (sep : ascii -> bool) (cur : list ascii) (l : list ascii)
  : list string :=
  match l with
  | [] => [of_chars (rev cur)]
  | c :: l' =>
      if sep c then of_chars (rev cur) :: split_go sep [] l'
      else split_go sep (c :: cur) l'
  end.

Definition split_on (sep : ascii -> bool) (s : string) : list string :=
  split_go sep [] (chars s).

(** [sep.join(l)] *)
Fixpoint join (sep : string) (l : list string) : string :=
  match l with
  | [] => ""
  | [x] => x
  | x :: l' => x +:+ sep +:+ join sep l'
  end.

(** [int(s)] on a string of decimal digits *)
Definition digit_val (c : ascii) : Z := code c - 48.
Definition int_of_digits (l : list ascii) : Z :=
  fold_left (fun acc c => 10 * acc + digit_val c) l 0.

(** [f"{n:0{w}d}"] for a natural [n] *)
Definition zero_pad (w : nat) (n : Z) : string :=
  let s := pretty n in
  of_chars (replicate (w - String.length s)%nat "0"%char) +:+ s.

End Str.

(** ** SHA-1 ([hashlib.sha1(...).hexdigest()]) *)

Module Sha1.

Definition w32 (x : Z) : Z := x mod 2 ^ 32.
Definition add32 (x y : Z) : Z := w32 (x + y).
Definition rotl (n x : Z) : Z :=
  w32 (Z.lor (Z.shiftl x n) (Z.shiftr x (32 - n))).
Definition not32 (x : Z) : Z := w32 (Z.lnot x).

(** The message followed by the bit 1, zeros up to 56 modulo 64, and the
    length in bits on eight bytes, big-endian. *)
Definition be_bytes (n : nat) (x : Z) : list Z :=
  map (fun i => Z.shiftr x (8 * Z.of_nat i) mod 256) (rev (seq 0 n)).

Definition pad (msg : list Z) : list Z :=
  let len := Z.of_nat (length msg) in
  let zeros := Z.to_nat ((55 - len) mod 64) in
  msg ++ [128] ++ replicate zeros 0 ++ be_bytes 8 (8 * len).

Definition word_of (bs : list Z) : Z :=
  fold_left (fun acc b => acc * 256 + b) bs 0.

Fixpoint words (n : nat) (bs : list Z) : list Z :=
  match n with
  | O => []
  | S n' => word_of (take 4 bs) :: words n' (drop 4 bs)
  end.

(** The message schedule, kept newest first: [w] holds W(t-1), W(t-2), ... *)
Fixpoint schedule (n : nat) (w : list Z) : list Z :=
  match n with
  | O => w
  | S n' =>
      let x := Z.lxor (Z.lxor (nth 2 w 0) (nth 7 w 0))
                      (Z.lxor (nth 13 w 0) (nth 15 w 0)) in
      schedule n' (rotl 1 x :: w)
  end.

Definition f (t : nat) (b c d : Z) : Z :=
  if (t <? 20)%nat then Z.lor (Z.land b c) (Z.land (not32 b) d)
  else if (t <? 40)%nat then Z.lxor (Z.lxor b c) d
  else if (t <? 60)%nat then
    Z.lor (Z.lor (Z.land b c) (Z.land b d)) (Z.land c d)
  else Z.lxor (Z.lxor b c) d.

Definition k (t : nat) : Z :=
  if (t <? 20)%nat then 0x5A827999
  else if (t <? 40)%nat then 0x6ED9EBA1
  else if (t <? 60)%nat then 0x8F1BBCDC
  else 0xCA62C1D6.

Definition state : Type := Z * Z * Z * Z * Z.

Definition round (st : state) (tw : nat * Z) : state :=
  let '(a, b, c, d, e) := st in
  let '(t, w) := tw in
  let tmp := add32 (add32 (add32 (add32 (rotl 5 a) (f t b c d)) e) (k t)) w in
  (tmp, a, rotl 30 b, c, d).

Definition compress (h : state) (block : list Z) : state :=
  let w := rev (schedule 64 (rev (words 16 block))) in
  let '(a, b, c, d, e) := fold_left round (combine (seq 0 80) w) h in
  let '(h0, h1, h2, h3, h4) := h in
  (add32 h0 a, add32 h1 b, add32 h2 c, add32 h3 d, add32 h4 e).

Fixpoint blocks (n : nat) (h : state) (bs : list Z) : state :=
  match n with
  | O => h
  | S n' => blocks n' (compress h (take 64 bs)) (drop 64 bs)
  end.

Definition init : state :=
  (0x67452301, 0xEFCDAB89, 0x98BADCFE, 0x10325476, 0xC3D2E1F0).

Definition digest (msg : list Z) : state :=
  let p := pad msg in
  blocks (length p / 64)%nat init p.

Definition hex_digit (x : Z) : ascii :=
  if x <? 10 then Str.chr (48 + x) else Str.chr (87 + x).

Definition hex_word (x : Z) : list ascii :=
  map (fun i => hex_digit (Z.shiftr x (4 * Z.of_nat i) mod 16)) (rev (seq 0 8)).

Definition hexdigest (s : string) : string :=
  let '(h0, h1, h2, h3, h4) := digest (map Str.code (Str.chars s)) in
  Str.of_chars (hex_word h0 ++ hex_word h1 ++ hex_word h2 ++ hex_word h3 ++ hex_word h4).

End Sha1.

(** ** Python values and records *)

#[local] Set Warnings "-register-all".

Inductive pyval : Type :=
  | VNone
  | VBool (b : bool)
  | VInt (n : Z)
  | VFloat (x : spec_float)
  | VStr (s : string)
  | VList (l : list pyval).

(** A [dict] with string keys, as [json.loads] and [DataFrame.to_dict]
    produce them. *)
Abbreviation record := (gmap string pyval).

(** [d.get(k)] *)
Definition get (d : record) (k : string) : pyval := default VNone (d !! k).

(** What the engine takes from its Python environment. *)
Class PyHost : Type := {
  (** [repr(x)] of a float, which is also [str(x)] *)
  float_repr : spec_float -> string;
  (** [float(s)]; [None] when it raises [ValueError] *)
  float_of_string : string -> option spec_float;
  (** [date_parser]: [None] when [dateutil] could not be imported; the parser
      is [date_parser.parse(s, default=datetime(1,1,1))] and yields the year,
      month and day of the [datetime], or [None] when it raises *)
  date_parser : option (string -> option (Z * Z * Z));
  (** [df.sort_values(col, ascending=False)] on the rows of a frame, [col]
      holding a count *)
  sort_values : forall {A : Type}, (A -> nat) -> list A -> list A
}.

Definition is_nan (x : spec_float) : bool :=
  match x with S754_nan => true | _ => false end.

Definition is_zero (x : spec_float) : bool :=
  match x with S754_zero _ => true | _ => false end.

(** [isinstance(v, float)], [isinstance(v, str)], [isinstance(v, list)] *)
Definition is_float (v : pyval) : bool :=
  match v with VFloat _ => true | _ => false end.



(** [bool(v)] *)
Definition truthy (v : pyval) : bool :=
  match v with
  | VNone => false
  | VBool b => b
  | VInt n => negb (n =? 0)
  | VFloat x => negb (is_zero x)
  | VStr s => negb (String.eqb s "")
  | VList l => match l with [] => false | _ => true end
  end.

(** Truth of an optional string, of an optional float and of a list. *)
Definition truthy_str (o : option string) : bool :=
  match o with Some s => negb (String.eqb s "") | None => false end.

Definition truthy_float (o : option spec_float) : bool :=
  match o with Some x => negb (is_zero x) | None => false end.

Definition truthy_list {A} (l : list A) : bool :=
  match l with [] => false | _ => true end.

(** [a or b] *)
Definition py_or (a b : pyval) : pyval := if truthy a then a else b.
Definition or_str (a b : option string) : option string :=
  if truthy_str a then a else b.
Definition or_float (a b : option spec_float) : option spec_float :=
  if truthy_float a then a else b.

(** [repr] of a string: single quotes unless the text has a single quote and
    no double quote; backslash, the quote and control characters escaped. *)
Definition hex2 (n : Z) : string :=
  Str.of_chars [Sha1.hex_digit (n / 16); Sha1.hex_digit (n mod 16)].

Definition repr_char (q : ascii) (c : ascii) : string :=
  let n := Str.code c in
  if n =? 92 then "\\"
  else if Ascii.eqb c q then String "\"%char (String c "")
  else if n =? 9 then "\t"
  else if n =? 10 then "\n"
  else if n =? 13 then "\r"
  else if (n <? 32) || (n =? 127) then "\x" +:+ hex2 n
  else String c "".

Definition single_quote : ascii := Str.chr 39.
Definition double_quote : ascii := Str.chr 34.

Definition repr_str (s : string) : string :=
  let q := if Str.contains single_quote s && negb (Str.contains double_quote s)
           then double_quote else single_quote in
  String q (Str.join "" (map (repr_char q) (Str.chars s))) +:+ String q "".

Section Host.
Context `{PyHost}.

(** [repr(v)] and [str(v)] *)
Fixpoint py_repr (v : pyval) : string :=
  match v with
  | VNone => "None"
  | VBool b => if b then "True" else "False"
  | VInt n => pretty n
  | VFloat x => float_repr x
  | VStr s => repr_str s
  | VList l => "[" +:+ Str.join ", " (map py_repr l) +:+ "]"
  end.

Definition py_str (v : pyval) : string :=
  match v with
  | VStr s => s
  | _ => py_repr v
  end.

End Host.

(** ** A reference host

    Used to run the engine on concrete records.  Every theorem below is
    proved for an arbitrary host; this one fixes the members on the values
    the examples need:
    - [repr_float] is Python's [repr] on NaN, the infinities, the zeros and the
      floats of integral value below 10^16 (digits followed by [.0]), the
      floats that the [".0"] clean-up of [normalize_str] is written for;
      other floats print as [<float>], which is not Python's text;
    - [parse_float] is Python's [float] on [nan], [inf], [infinity] and on plain
      decimal literals (sign, digits, optional fraction) of at most 15
      digits, where one correctly rounded division gives the nearest double;
      every other text is rejected, as Python rejects text that is no number
      (exponents, digit separators and longer literals are left out);
    - [parse_iso] reads the ISO forms [YYYY], [YYYY-MM] and [YYYY-MM-DD]
      with a year from 1000 on and a day up to the 28th, as [dateutil]
      does, and rejects other text;
    - [sort_stable] is a stable insertion sort. *)

Module Ref.

Definition prec : Z := 53.
Definition emax : Z := 1024.

Definition of_Z (n : Z) : spec_float := binary_normalize prec emax n 0 false.

(** The value of a finite float when it is an integer. *)
Definition integral (m : positive) (e : Z) : option Z :=
  if 0 <=? e then Some (Z.pos m * 2 ^ e)
  else if Z.pos m mod 2 ^ (- e) =? 0 then Some (Z.pos m / 2 ^ (- e))
  else None.

Definition repr_float (x : spec_float) : string :=
  match x with
  | S754_nan => "nan"
  | S754_infinity s => if s then "-inf" else "inf"
  | S754_zero s => if s then "-0.0" else "0.0"
  | S754_finite s m e =>
      match integral m e with
      | Some n =>
          if n <? 10 ^ 16 then (if s then "-" else "") +:+ pretty n +:+ ".0"
          else "<float>"
      | None => "<float>"
      end
  end.

Definition signed (neg : bool) (x : spec_float) : spec_float :=
  if neg then SFopp x else x.

Definition decimal (neg : bool) (ip fp : list ascii) : option spec_float :=
  let ds := ip ++ fp in
  if forallb Str.is_digit ds && negb (length ds =? 0)%nat && (length ds <=? 15)%nat
  then
    let n := Str.int_of_digits ds in
    let d := 10 ^ Z.of_nat (length fp) in
    Some (signed neg (if n =? 0 then S754_zero false
                      else SFdiv prec emax (of_Z n) (of_Z d)))
  else None.

Definition unsigned_literal (neg : bool) (l : list ascii) : option spec_float :=
  let w := Str.lower (Str.of_chars l) in
  if String.eqb w "nan" then Some S754_nan
  else if String.eqb w "inf" || String.eqb w "infinity" then Some (S754_infinity neg)
  else
    match Str.split_on (Ascii.eqb ".") (Str.of_chars l) with
    | [ip] => decimal neg (Str.chars ip) []
    | [ip; fp] => decimal neg (Str.chars ip) (Str.chars fp)
    | _ => None
    end.

Definition parse_float (s : string) : option spec_float :=
  match Str.chars (Str.strip s) with
  | "-"%char :: l => unsigned_literal true l
  | "+"%char :: l => unsigned_literal false l
  | l => unsigned_literal false l
  end.

Definition digits_in (lo hi : Z) (s : string) : option Z :=
  if Str.isdigit s then
    let n := Str.int_of_digits (Str.chars s) in
    if (lo <=? n) && (n <=? hi) then Some n else None
  else None.

Definition parse_iso (s : string) : option (Z * Z * Z) :=
  match Str.split_on (Ascii.eqb "-") s with
  | [y] =>
      if (String.length y =? 4)%nat
      then y' ← digits_in 1000 9999 y; Some (y', 1, 1) else None
  | [y; m] =>
      if (String.length y =? 4)%nat && (String.length m =? 2)%nat
      then y' ← digits_in 1000 9999 y; m' ← digits_in 1 12 m; Some (y', m', 1)
      else None
  | [y; m; d] =>
      if (String.length y =? 4)%nat && (String.length m =? 2)%nat
         && (String.length d =? 2)%nat
      then y' ← digits_in 1000 9999 y; m' ← digits_in 1 12 m;
           d' ← digits_in 1 28 d; Some (y', m', d')
      else None
  | _ => None
  end.

(** Stable insertion sort, largest key first. *)
Fixpoint insert_desc {A} (key : A -> nat) (x : A) (l : list A) : list A :=
  match l with
  | [] => [x]
  | y :: l' =>
      if (key y <=? key x)%nat then x :: l
      else y :: insert_desc key x l'
  end.

Definition sort_stable {A} (key : A -> nat) (l : list A) : list A :=
  foldr (insert_desc key) [] l.

Definition host : PyHost :=
  {| float_repr := repr_float;
     float_of_string := parse_float;
     date_parser := Some parse_iso;
     sort_values := @sort_stable |}.

End Ref.

(** ** The sort of pandas

    [df.sort_values("_score", ascending=False)] leaves [kind] at its
    default, [quicksort]: pandas ([nargsort]) reverses the column, asks
    NumPy for [argsort(kind="quicksort")] and reverses the answer.  NumPy's
    quicksort on indices is [aquicksort] of [npysort/quicksort.cpp]: an
    introsort with the median of three as pivot, insertion sort on ranges of
    at most 17 entries and heapsort ([aheapsort]) when the depth limit is
    used up.  An array is a list, a pointer into it a position. *)

Module Numpy.

Definition SMALL_QUICKSORT : Z := 16.

Section Argsort.
Variable v : list nat.

(** The entry at [p], its key and the write to [p], for a pointer [p]
    into [tosort] *)
Definition deref (a : list nat) (p : Z) : nat := nth (Z.to_nat p) a 0%nat.
Definition key (a : list nat) (p : Z) : nat := nth (deref a p) v 0%nat.
Definition store (a : list nat) (p : Z) (x : nat) : list nat :=
  <[Z.to_nat p := x]> a.

(** [INTP_SWAP] of the entries at [p] and [q] *)
Definition swap (a : list nat) (p q : Z) : list nat :=
  store (store a p (deref a q)) q (deref a p).

Definition less (x y : nat) : bool := (x <? y)%nat.

(** [do { ++pi; } while (less(v[*pi], vp));] and
    [do { --pj; } while (less(vp, v[*pj]));] *)
Fixpoint scan_up (fuel : nat) (a : list nat) (vp : nat) (pi : Z) : Z :=
  let pi := pi + 1 in
  match fuel with
  | O => pi
  | S fuel => if less (key a pi) vp then scan_up fuel a vp pi else pi
  end.

Fixpoint scan_down (fuel : nat) (a : list nat) (vp : nat) (pj : Z) : Z :=
  let pj := pj - 1 in
  match fuel with
  | O => pj
  | S fuel => if less vp (key a pj) then scan_down fuel a vp pj else pj
  end.

(** The [for (;;)] of the partition: the array and [pi] at the [break]. *)
Fixpoint partition (fuel : nat) (a : list nat) (vp : nat) (pi pj : Z)
  : list nat * Z :=
  let pi := scan_up (length a) a vp pi in
  let pj := scan_down (length a) a vp pj in
  if pj <=? pi then (a, pi)
  else
    match fuel with
    | O => (a, pi)
    | S fuel => partition fuel (swap a pi pj) vp pi pj
    end.

(** One round of [while ((pr - pl) > SMALL_QUICKSORT)]: the array, the
    range to go on with and the range pushed on the stack. *)
Definition partition_step (a : list nat) (pl pr : Z)
  : list nat * (Z * Z) * (Z * Z) :=
  let pm := pl + Z.shiftr (pr - pl) 1 in
  let a := if less (key a pm) (key a pl) then swap a pm pl else a in
  let a := if less (key a pr) (key a pm) then swap a pr pm else a in
  let a := if less (key a pm) (key a pl) then swap a pm pl else a in
  let vp := key a pm in
  let a := swap a pm (pr - 1) in
  let '(a, pi) := partition (length a) a vp pl (pr - 1) in
  let a := swap a pi (pr - 1) in
  if pi - pl <? pr - pi then (a, (pl, pi - 1), (pi + 1, pr))
  else (a, (pi + 1, pr), (pl, pi - 1)).

(** The insertion sort of a range: [while (pj > pl && less(vp, v[*pk]))
    { *pj-- = *pk--; } *pj = vi;] for every [pi] from [pl + 1] to [pr]. *)
Fixpoint shift (fuel : nat) (a : list nat) (pl : Z) (vi vp : nat) (pj : Z)
  : list nat :=
  match fuel with
  | O => store a pj vi
  | S fuel =>
      if (pl <? pj) && less vp (key a (pj - 1))
      then shift fuel (store a pj (deref a (pj - 1))) pl vi vp (pj - 1)
      else store a pj vi
  end.

Fixpoint insertion (count : nat) (a : list nat) (pl pi : Z) : list nat :=
  match count with
  | O => a
  | S count =>
      let vi := deref a pi in
      insertion count (shift (length a) a pl vi (nth vi v 0%nat) pi) pl (pi + 1)
  end.

Definition insertion_sort (a : list nat) (pl pr : Z) : list nat :=
  insertion (Z.to_nat (pr - pl)) a pl (pl + 1).

(** [aheapsort] on the [n] entries from [pl] on; [a = tosort - 1] counts
    them from 1. *)
Definition heap_key (a : list nat) (pl k : Z) : nat := key a (pl + k - 1).

Fixpoint sift (fuel : nat) (a : list nat) (pl n : Z) (tmp : nat) (i j : Z)
  : list nat :=
  match fuel with
  | O => store a (pl + i - 1) tmp
  | S fuel =>
      if j <=? n then
        let j := if (j <? n) && less (heap_key a pl j) (heap_key a pl (j + 1))
                 then j + 1 else j in
        if less (nth tmp v 0%nat) (heap_key a pl j)
        then sift fuel (store a (pl + i - 1) (deref a (pl + j - 1))) pl n tmp j (j + j)
        else store a (pl + i - 1) tmp
      else store a (pl + i - 1) tmp
  end.

Fixpoint heapify (count : nat) (a : list nat) (pl n l : Z) : list nat :=
  match count with
  | O => a
  | S count =>
      heapify count (sift (length a) a pl n (deref a (pl + l - 1)) l (Z.shiftl l 1))
              pl n (l - 1)
  end.

Fixpoint heap_pop (count : nat) (a : list nat) (pl n : Z) : list nat :=
  match count with
  | O => a
  | S count =>
      let tmp := deref a (pl + n - 1) in
      let a := store a (pl + n - 1) (deref a pl) in
      heap_pop count (sift (length a) a pl (n - 1) tmp 1 2) pl (n - 1)
  end.

Definition aheapsort (a : list nat) (pl n : Z) : list nat :=
  let a := heapify (Z.to_nat (Z.shiftr n 1)) a pl n (Z.shiftr n 1) in
  heap_pop (Z.to_nat (n - 1)) a pl n.

(** The outer [while (1)]: [top] tells that the depth is to be tested, as
    it is at the start and after every [stack_pop]. *)
Fixpoint loop (fuel : nat) (a : list nat) (pl pr : Z)
    (stack : list (Z * Z * Z)) (cdepth : Z) (top : bool) : list nat :=
  match fuel with
  | O => a
  | S fuel =>
      let stack_pop (a : list nat) : list nat :=
        match stack with
        | [] => a
        | (pl, pr, cdepth) :: stack => loop fuel a pl pr stack cdepth true
        end in
      if top && (cdepth <? 0) then stack_pop (aheapsort a pl (pr - pl + 1))
      else if SMALL_QUICKSORT <? pr - pl then
        let '(a, (pl', pr'), (ql, qr)) := partition_step a pl pr in
        loop fuel a pl' pr' ((ql, qr, cdepth - 1) :: stack) (cdepth - 1) false
      else stack_pop (insertion_sort a pl pr)
  end.

End Argsort.

(** [npy_get_msb(num) * 2], the depth allowed *)
Definition depth_limit (num : nat) : Z := Z.log2 (Z.of_nat num) * 2.

(** [v.argsort(kind="quicksort")] *)
Definition argsort (v : list nat) : list nat :=
  let num := length v in
  loop v (2 * num + 2) (seq 0 num) 0 (Z.of_nat num - 1) [] (depth_limit num) true.

(** [nargsort(k, kind="quicksort", ascending=False)] of pandas on a column
    without missing values *)
Definition nargsort (items : list nat) : list nat :=
  let idx := seq 0 (length items) in
  let non_nans := rev items in
  let non_nan_idx := rev idx in
  rev (map (λ i, nth i non_nan_idx 0%nat) (argsort non_nans)).

(** [df.sort_values(col, ascending=False)] *)
Definition sort_frame {A : Type} (key : A → nat) (l : list A) : list A :=
  omap (λ i, l !! i) (nargsort (map key l)).

Definition host : PyHost :=
  {| float_repr := Ref.repr_float;
     float_of_string := Ref.parse_float;
     date_parser := Some Ref.parse_iso;
     sort_values := @sort_frame |}.

End Numpy.

(** ** Exceptions

    A computation that may raise is a value of [result]; [try ... except
    Exception] is [try_except]. *)

Inductive exn : Type := ValueError | TypeError | ParserError | UnicodeEncodeError.

Inductive result (A : Type) : Type :=
  | Ok (a : A)
  | Raise (e : exn).
Arguments Ok {A} a.
Arguments Raise {A} e.

Definition bind {A B} (c : result A) (k : A -> result B) : result B :=
  match c with
  | Ok a => k a
  | Raise e => Raise e
  end.

Definition try_except {A} (c : result A) (handler : result A) : result A :=
  match c with
  | Ok a => Ok a
  | Raise _ => handler
  end.

(** The value of a computation that is known not to raise. *)
Definition value {A} (d : A) (c : result A) : A :=
  match c with
  | Ok a => a
  | Raise _ => d
  end.

#[global] Instance result_bind : MBind result := fun _ _ k c => bind c k.

(** [int(s)], for the texts the code passes: digits give their number, any
    other text is taken to raise. *)
Definition py_int (s : string) : result Z :=
  if Str.isdigit s then Ok (Str.int_of_digits (Str.chars s)) else Raise ValueError.

(** The results of a list of computations, run from left to right: the
    first that raises ends the run. *)
Fixpoint collect {A} (l : list (result A)) : result (list A) :=
  match l with
  | [] => Ok []
  | c :: l' => a ← c; r ← collect l'; Ok (a :: r)
  end.

(** [str(n)] and [repr(n)] of an [int] raise [ValueError] when [n] has
    more than 4300 decimal digits, the default of
    [sys.get_int_max_str_digits()]. *)
Definition int_max_str_digits : Z := 4300.

Definition int_str_raises (n : Z) : bool :=
  10 ^ int_max_str_digits <=? Z.abs n.

Section HostExc.
Context `{PyHost}.

(** [repr(v)] and [str(v)] with what they raise: the text of a list is
    made of the texts of its items. *)
Fixpoint py_repr_exc (v : pyval) : result string :=
  match v with
  | VInt n => if int_str_raises n then Raise ValueError else Ok (pretty n)
  | VList l =>
      parts ← collect (map py_repr_exc l);
      Ok ("[" +:+ Str.join ", " parts +:+ "]")
  | _ => Ok (py_repr v)
  end.

Definition py_str_exc (v : pyval) : result string :=
  match v with
  | VStr s => Ok s
  | _ => py_repr_exc v
  end.

End HostExc.


(** ** The patterns of [iso_date] and of [pub_year]

    [re.match] anchors at the start; [\d{1,2}] is greedy and gives a digit
    back only when what follows in the pattern asks for it. *)

Module Pat.

Definition digits4 (l : list ascii) : option (list ascii * list ascii) :=
  match l with
  | a :: b :: c :: d :: rest =>
      if forallb Str.is_digit [a; b; c; d] then Some ([a; b; c; d], rest) else None
  | _ => None
  end.

Definition is_dash (c : ascii) : bool := Ascii.eqb c "-".

(** [-(\d{1,2})] at the end of a pattern: the longest run wins. *)
Definition dash_digits_last (l : list ascii) : option (list ascii) :=
  match l with
  | c :: a :: rest =>
      if is_dash c && Str.is_digit a then
        match rest with
        | b :: _ => if Str.is_digit b then Some [a; b] else Some [a]
        | [] => Some [a]
        end
      else None
  | _ => None
  end.

(** [-(\d{1,2})] followed by a dash: one or two digits, and what is left,
    dash first. *)
Definition dash_digits_dash (l : list ascii) : option (list ascii * list ascii) :=
  match l with
  | c :: a :: rest =>
      if is_dash c && Str.is_digit a then
        match rest with
        | b :: rest' =>
            if is_dash b then Some ([a], rest)
            else if Str.is_digit b then
              match rest' with
              | c' :: _ => if is_dash c' then Some ([a; b], rest') else None
              | [] => None
              end
            else None
        | [] => None
        end
      else None
  | _ => None
  end.

(** [^(\d{4})-(\d{1,2})-(\d{1,2})] *)
Definition ymd (s : string) : option (string * string * string) :=
  '(y, r1) ← digits4 (Str.chars s);
  '(m, r2) ← dash_digits_dash r1;
  d ← dash_digits_last r2;
  Some (Str.of_chars y, Str.of_chars m, Str.of_chars d).

(** [^(\d{4})-(\d{1,2})] *)
Definition ym (s : string) : option (string * string) :=
  '(y, r1) ← digits4 (Str.chars s);
  m ← dash_digits_last r1;
  Some (Str.of_chars y, Str.of_chars m).

(** [^(\d{4})] *)
Definition y (s : string) : option string :=
  '(y, _) ← digits4 (Str.chars s);
  Some (Str.of_chars y).

End Pat.

(** ** Normalization *)

Section Normalize.
Context `{PyHost}.

Definition normalize_str (val : pyval) : option string :=
  match val with
  | VNone => None
  | _ =>
      let s := Str.strip (py_str val) in
      if String.eqb s "" || String.eqb (Str.lower s) "nan" then None
      else
        let s := if Str.endswith s ".0" && Str.isdigit (Str.drop_last 2 s)
                 then Str.drop_last 2 s else s in
        Some (Str.collapse_ws s)
  end.


Definition normalize_title (title : pyval) : option string :=
  let t := normalize_str title in
  if negb (truthy_str t) then None
  else
    let t := Str.lower (default "" t) in
    let t := Str.drop_punct t in
    Some (Str.strip (Str.collapse_ws t)).


Definition author_sep (c : ascii) : bool := Str.contains c "|,;".

Definition normalize_author (auth : pyval) : list string :=
  if negb (truthy auth) || is_float auth then []
  else
    match auth with
    | VStr s =>
        omap (fun p => if truthy_str (normalize_str (VStr p))
                       then normalize_str (VStr p) else None)
             (Str.split_on author_sep s)
    | VList parts =>
        omap (fun p => if truthy_str (normalize_str p)
                       then normalize_str p else None) parts
    | _ => []
    end.



Definition normalize_categories (val : pyval) : list string :=
  if negb (truthy val) || is_float val then []
  else
    match val with
    | VList l =>
        omap (fun x => if truthy x && negb (String.eqb (Str.strip (py_str x)) "")
                       then Some (Str.strip (py_str x)) else None) l
    | _ =>
        let s := py_str val in
        if Str.contains "|" s
        then omap (fun x => if negb (String.eqb (Str.strip x) "")
                            then Some (Str.strip x) else None)
                  (Str.split_on (Ascii.eqb "|") s)
        else [Str.strip s]
    end.



Definition get_first_author (auth : pyval) : string :=
  match normalize_author auth with
  | a :: _ => a
  | [] => ""
  end.

(** [date_parser.parse(s, default=datetime(1,1,1))] *)
Definition dateutil_parse (parse : string -> option (Z * Z * Z)) (s : string)
  : result (Z * Z * Z) :=
  match parse s with
  | Some dt => Ok dt
  | None => Raise ParserError
  end.

(** The three fall-back patterns, tried when [dateutil] is missing or
    raised. *)
Definition iso_date_patterns (s : string) : result (option string) :=
  match Pat.ymd s with
  | Some (y, m, d) =>
      m' ← py_int m; d' ← py_int d;
      Ok (Some (y +:+ "-" +:+ Str.zero_pad 2 m' +:+ "-" +:+ Str.zero_pad 2 d'))
  | None =>
      match Pat.ym s with
      | Some (y, m) =>
          m' ← py_int m;
          Ok (Some (y +:+ "-" +:+ Str.zero_pad 2 m'))
      | None =>
          match Pat.y s with
          | Some y => Ok (Some y)
          | None => Ok None
          end
      end
  end.

Definition iso_date_exc (val : pyval) : result (option string) :=
  if negb (truthy val) || is_float val then Ok None
  else
    s ← py_str_exc val;
    let s := Str.strip s in
    if String.eqb s "" || String.eqb (Str.lower s) "nan" then Ok None
    else
      match date_parser with
      | Some parse =>
          try_except
            ('(year, month, day) ← dateutil_parse parse s;
             if negb (day =? 1)
             then Ok (Some (Str.zero_pad 4 year +:+ "-" +:+ Str.zero_pad 2 month
                            +:+ "-" +:+ Str.zero_pad 2 day))
             else if negb (month =? 1)
             then Ok (Some (Str.zero_pad 4 year +:+ "-" +:+ Str.zero_pad 2 month))
             else Ok (Some (Str.zero_pad 4 year)))
            (iso_date_patterns s)
      | None => iso_date_patterns s
      end.

Definition iso_date (val : pyval) : option string :=
  value None (iso_date_exc val).

Definition normalize_currency (curr : pyval) : option string :=
  if negb (truthy curr) || is_float curr then None
  else
    let s := Str.upper (Str.strip (py_str curr)) in
    if String.eqb s "€" then Some "EUR"
    else if String.eqb s "$" then Some "USD"
    else if String.eqb s "£" then Some "GBP"
    else Some (Str.prefix 3 s).


(** [float(s)] *)
Definition py_float (s : string) : result spec_float :=
  match float_of_string s with
  | Some x => Ok x
  | None => Raise ValueError
  end.

Definition safe_decimal_exc (v : pyval) : result (option spec_float) :=
  match v with
  | VNone => Ok None
  | VFloat x => Ok (if negb (is_nan x) then Some x else None)
  | _ =>
      try_except
        (s ← py_str_exc v;
         x ← py_float (Str.replace_char "," "." s);
         Ok (Some x))
        (Ok None)
  end.

Definition safe_decimal (v : pyval) : option spec_float :=
  value None (safe_decimal_exc v).

(** [stable_hash_id] on the lists it is declared for and that the engine
    passes, texts and [None]: [f or ""] on each field, then the digest of
    the joined text. *)
Definition stable_hash_id (fields : list (option string)) : string :=
  Sha1.hexdigest
    (Str.join "||" (map (fun f => if truthy_str f then default "" f else "") fields)).

End Normalize.







(** ** Merge logic *)

(** A row of [dim_book], the dictionary that [merge_records] returns. *)
Record book : Type := {
  canonical_id : string;
  isbn13 : option string;
  isbn10 : option string;
  title : option string;
  title_normalized : option string;
  authors : option string;
  first_author : option string;
  publisher : option string;
  pub_date : option string;
  pub_year : option Z;
  language : pyval;
  categories : option string;
  num_pages : pyval;
  format : pyval;
  description : pyval;
  rating_value : pyval;
  rating_count : pyval;
  price_amount : option spec_float;
  price_currency : option string;
  source_preference : string;
  most_complete_url : pyval;
  ingestion_date_goodreads : pyval;
  ingestion_date_google : pyval
}.

(** A value that may be [None], seen as an option and back. *)
Definition nullable (v : pyval) : option pyval :=
  match v with VNone => None | _ => Some v end.

Definition of_nullable (o : option pyval) : pyval := default VNone o.

(** [bool(d)] for a dictionary *)
Definition truthy_dict (d : record) : bool :=
  match map_to_list d with [] => false | _ => true end.

Definition choose_survivor {A} (str : A -> string)
    (val_g val_gg : option A) (prefer : string) : option A :=
  match val_g, val_gg with
  | None, _ => val_gg
  | _, None => val_g
  | Some a, Some b =>
      if String.eqb (Str.strip (str a)) (Str.strip (str b)) then val_g
      else if String.eqb prefer "goodreads" then val_g else val_gg
  end.

Section Merge.
Context `{PyHost}.

(** The loop that merges two lists of names, keeping the first occurrence
    of each normalized name; the state is [seen] and the list built so
    far. *)
Definition merge_step (st : gset string * list string) (a : string)
  : gset string * list string :=
  let '(seen, merged) := st in
  match normalize_str (VStr a) with
  | Some n =>
      if truthy_str (Some n) && negb (bool_decide (n ∈ seen))
      then ({[n]} ∪ seen, merged ++ [n])
      else st
  | None => st
  end.

Definition merge_names (l : list string) : list string :=
  snd (fold_left merge_step l (∅, [])).

Definition joined (l : list string) : option string :=
  if truthy_list l then Some (Str.join " | " l) else None.

(** [sum(1 for v in [...] if v)] *)
Definition count_true (l : list bool) : nat := length (filter Is_true l).

Definition year_of (pub_date : option string) : option Z :=
  if truthy_str pub_date then
    match Pat.y (default "" pub_date) with
    | Some y => Some (Str.int_of_digits (Str.chars y))
    | None => None
    end
  else None.

(** [str(pub_year or "")] *)
Definition year_text (pub_year : option Z) : string :=
  match pub_year with
  | Some y => if y =? 0 then "" else pretty y
  | None => ""
  end.

Definition merge_records (g gg : record) : book :=
  let has_gg := truthy_dict gg in
  (* normalize basics *)
  let t_g := normalize_str (get g "title") in
  let t_gg := if has_gg then normalize_str (get gg "title") else None in
  (* authors merge *)
  let a_g := normalize_author (get g "authors") in
  let a_gg := if has_gg then normalize_author (get gg "authors") else [] in
  let merged_authors := merge_names (a_g ++ a_gg) in
  let authors_str := joined merged_authors in
  let first_author := head merged_authors in
  (* categories *)
  let cats_g := normalize_categories (get g "categories") in
  let cats_gg := normalize_categories (if has_gg then get gg "categories" else VNone) in
  let merged_cats := merge_names (cats_g ++ cats_gg) in
  let categories_str := joined merged_cats in
  (* dates *)
  let pub_g := iso_date (get g "pub_date") in
  let pub_gg := if has_gg then iso_date (get gg "pub_date") else None in
  let pub_date := choose_survivor id pub_g pub_gg "goodreads" in
  let pub_year := year_of pub_date in
  (* prices *)
  let price_amt :=
    or_float (safe_decimal (if has_gg then get gg "price_amount" else VNone))
             (safe_decimal (get g "price_amount")) in
  let price_cur :=
    or_str (normalize_currency (if has_gg then get gg "price_currency" else VNone))
           (normalize_currency (get g "price_currency")) in
  (* ids *)
  let isbn13 :=
    or_str (normalize_str (get g "isbn13"))
           (normalize_str (if has_gg then get gg "isbn13" else VNone)) in
  let isbn10 :=
    or_str (normalize_str (py_or (get g "isbn10") (get g "isbn")))
           (normalize_str (if has_gg then get gg "isbn10" else VNone)) in
  let title := choose_survivor id t_g t_gg "goodreads" in
  let publisher :=
    choose_survivor id (normalize_str (get g "publisher"))
      (normalize_str (if has_gg then get gg "publisher" else VNone)) "goodreads" in
  (* score heuristic to pick preferred source *)
  let score_g :=
    count_true [truthy_str t_g; truthy_list a_g; truthy_str pub_g;
                truthy (get g "num_pages")] in
  let score_gg :=
    count_true [truthy_str t_gg; truthy_list a_gg; truthy_str pub_gg;
                truthy_float price_amt;
                truthy_str (normalize_str (if has_gg then get gg "isbn13" else VNone))] in
  let pref := if (score_gg <=? score_g)%nat then "goodreads" else "google" in
  let url_pref :=
    if (score_gg <=? score_g)%nat then get g "url"
    else if has_gg then get gg "url" else get g "url" in
  let norm_title_hash := normalize_title (of_nullable (VStr <$> title)) in
  let cid :=
    if truthy_str isbn13 then default "" isbn13
    else stable_hash_id
           [or_str norm_title_hash (Some ""); or_str first_author (Some "");
            or_str publisher (Some ""); Some (year_text pub_year)] in
  {| canonical_id := cid;
     isbn13 := isbn13;
     isbn10 := isbn10;
     title := title;
     title_normalized := norm_title_hash;
     authors := authors_str;
     first_author := first_author;
     publisher := publisher;
     pub_date := pub_date;
     pub_year := pub_year;
     language := py_or (get g "language") (if has_gg then get gg "language" else VNone);
     categories := categories_str;
     num_pages :=
       of_nullable (choose_survivor py_str (nullable (get g "num_pages"))
                      (nullable (if has_gg then get gg "pageCount" else VNone))
                      "goodreads");
     format :=
       of_nullable (choose_survivor py_str (nullable (get g "format"))
                      (nullable (if has_gg then get gg "format" else VNone))
                      "goodreads");
     description :=
       of_nullable (choose_survivor py_str (nullable (get g "desc"))
                      (nullable (if has_gg then get gg "description" else VNone))
                      "goodreads");
     rating_value := get g "rating_value";
     rating_count := get g "rating_count";
     price_amount := price_amt;
     price_currency := price_cur;
     source_preference := pref;
     most_complete_url := url_pref;
     ingestion_date_goodreads := get g "ingestion_date";
     ingestion_date_google := if has_gg then get gg "ingestion_date" else VNone |}.

End Merge.

(** ** Pipeline *)

(** A row of [book_source_detail]. *)
Record detail : Type := {
  detail_canonical_id : string;
  gb_id : string;
  from_google : bool;
  merge_method : string;
  timestamp : string
}.

(** The three look-up tables over the Google records. *)
Record indexes : Type := {
  google_by_gbid : gmap string record;
  google_by_isbn13 : gmap string record;
  google_by_key : gmap string record
}.

Definition no_indexes : indexes :=
  {| google_by_gbid := ∅; google_by_isbn13 := ∅; google_by_key := ∅ |}.

(** [notnull] on a cell *)
Definition notnull (v : pyval) : bool :=
  match v with
  | VNone => false
  | VFloat x => negb (is_nan x)
  | _ => true
  end.

Definition notnull_float (o : option spec_float) : bool :=
  match o with Some x => negb (is_nan x) | None => false end.

Definition some {A} (o : option A) : bool :=
  match o with Some _ => true | None => false end.

(** [df.replace({np.nan: None})] on one cell and on one row *)
Definition nan_to_none (v : pyval) : pyval :=
  match v with
  | VFloat x => if is_nan x then VNone else v
  | _ => v
  end.

(** [df.empty]: no row, or no column because every row is the empty
    dictionary. *)
Definition frame_empty (rows : list record) : bool :=
  forallb (fun r => negb (truthy_dict r)) rows.

(** [df.replace({np.nan: None}).to_dict(orient="records") if not df.empty
    else []]; a key that a row lacks reads as [None] either way.  The frame
    is the list of its rows with the values as pandas holds them: what
    pandas makes of a file when it reads it (a column of numbers with a
    gap becomes a column of floats) has happened before. *)
Definition to_records (rows : list record) : list record :=
  if frame_empty rows then [] else map (fmap nan_to_none) rows.

(** [m.setdefault(k, v)] *)
Definition setdefault (k : string) (v : record) (m : gmap string record)
  : gmap string record :=
  match m !! k with
  | Some _ => m
  | None => <[k := v]> m
  end.

(** [df.drop_duplicates(subset=["canonical_id"], keep="first")]; [seen]
    holds the identifiers of the rows kept so far. *)
Fixpoint drop_duplicates_from (seen : gset string) (rows : list book) : list book :=
  match rows with
  | [] => []
  | r :: rows' =>
      if bool_decide (canonical_id r ∈ seen) then drop_duplicates_from seen rows'
      else r :: drop_duplicates_from ({[canonical_id r]} ∪ seen) rows'
  end.

Definition drop_duplicates (rows : list book) : list book :=
  drop_duplicates_from ∅ rows.

(** [df_final.notnull().sum(axis=1)] on one row: the cells that are neither
    [None] nor NaN, over the 23 columns. *)
Definition score (b : book) : nat :=
  count_true
    [true; some (isbn13 b); some (isbn10 b); some (title b);
     some (title_normalized b); some (authors b); some (first_author b);
     some (publisher b); some (pub_date b); some (pub_year b);
     notnull (language b); some (categories b); notnull (num_pages b);
     notnull (format b); notnull (description b); notnull (rating_value b);
     notnull (rating_count b); notnull_float (price_amount b);
     some (price_currency b); true; notnull (most_complete_url b);
     notnull (ingestion_date_goodreads b); notnull (ingestion_date_google b)].

Section Pipeline.
Context `{PyHost}.

(** The keys under which the loop over the Google records files a record:
    [str(r["gb_id"])] when [gb_id] is truthy, the normalized ISBN-13 when
    there is one, and [f"{tnorm}||{afirst}"] when both parts are truthy. *)
Definition key_gbid (r : record) : option string :=
  if truthy (get r "gb_id") then Some (py_str (get r "gb_id")) else None.

Definition key_isbn13 (r : record) : option string :=
  let isbn := normalize_str (get r "isbn13") in
  if truthy_str isbn then isbn else None.

Definition key_title_author (r : record) : option string :=
  let tnorm := normalize_title (get r "title") in
  let afirst := get_first_author (get r "authors") in
  if truthy_str tnorm && truthy_str (Some afirst)
  then Some (default "" tnorm +:+ "||" +:+ afirst) else None.

(** One turn of that loop: plain assignment for the first two tables,
    [setdefault] for the third. *)
Definition index_record (ix : indexes) (r : record) : indexes :=
  {| google_by_gbid :=
       match key_gbid r with
       | Some k => <[k := r]> (google_by_gbid ix)
       | None => google_by_gbid ix
       end;
     google_by_isbn13 :=
       match key_isbn13 r with
       | Some k => <[k := r]> (google_by_isbn13 ix)
       | None => google_by_isbn13 ix
       end;
     google_by_key :=
       match key_title_author r with
       | Some k => setdefault k r (google_by_key ix)
       | None => google_by_key ix
       end |}.

Definition build_indexes (recs : list record) : indexes :=
  fold_left index_record recs no_indexes.

(** [gid] of a Goodreads record *)
Definition gid_of (g : record) : string :=
  match get g "id" with
  | VNone => ""
  | v => py_str v
  end.

(** The three look-ups of the matcher, each with its guard. *)
Definition lookup_id (ix : indexes) (g : record) : option record :=
  let gid := gid_of g in
  if truthy_str (Some gid) then google_by_gbid ix !! gid else None.

Definition lookup_isbn (ix : indexes) (g : record) : option record :=
  let isbn := normalize_str (py_or (get g "isbn13") (get g "isbn")) in
  if truthy_str isbn then google_by_isbn13 ix !! default "" isbn else None.

Definition lookup_key (ix : indexes) (g : record) : option record :=
  let key := key_title_author g in
  if truthy_str key then google_by_key ix !! default "" key else None.

(** The cascade: the matched record, if any, and the method. *)
Definition match_record (ix : indexes) (g : record) : option record * string :=
  match lookup_id ix g with
  | Some r => (Some r, "id")
  | None =>
      match lookup_isbn ix g with
      | Some r => (Some r, "isbn")
      | None =>
          match lookup_key ix g with
          | Some r => (Some r, "heuristic")
          | None => (None, "none")
          end
      end
  end.

(** [matched or {}] and [bool(matched)] *)
Definition or_empty (matched : option record) : record :=
  match matched with
  | Some r => if truthy_dict r then r else ∅
  | None => ∅
  end.

Definition truthy_match (matched : option record) : bool :=
  match matched with
  | Some r => truthy_dict r
  | None => false
  end.

(** The body of the loop over the Goodreads records. *)
Definition process (ts : string) (ix : indexes) (g : record) : book * detail :=
  let '(matched, method) := match_record ix g in
  let merged := merge_records g (or_empty matched) in
  (merged,
   {| detail_canonical_id := canonical_id merged;
      gb_id := gid_of g;
      from_google := truthy_match matched;
      merge_method := method;
      timestamp := ts |}).

(** Deduplicate by [canonical_id] preferring more-complete rows. *)
Definition deduplicate (merged_rows : list book) : list book :=
  match merged_rows with
  | [] => []
  | _ => drop_duplicates (sort_values score merged_rows)
  end.

(** [run_pipeline], from the two frames read to the two frames saved;
    [ts] is the reading of the clock at the start. *)
Definition run_pipeline (ts : string) (df_good df_gg : list record)
  : list book * list detail :=
  let ix := build_indexes (to_records df_gg) in
  let gr_recs := to_records df_good in
  let rows := map (process ts ix) gr_recs in
  let merged_rows := map fst rows in
  let detail_rows := map snd rows in
  (deduplicate merged_rows, detail_rows).

End Pipeline.

(** ** The identifier as the specification words it

    The normalized ISBN-13 when there is one; otherwise the digest of the
    normalized title, the first author, the publisher and the year as text,
    joined with [||], an absent part being the empty text. *)
Definition claimed_canonical_id (b : book) : string :=
  match isbn13 b with
  | Some i => i
  | None =>
      Sha1.hexdigest
        (Str.join "||"
           [default "" (title_normalized b); default "" (first_author b);
            default "" (publisher b); from_option pretty "" (pub_year b)])
  end.

(** The contract of [sort_values(..., ascending=False)]: the rows come back
    rearranged, largest key first.  The order among rows of equal key is not
    part of it: the call leaves [kind] at its default, quicksort, which is
    not a stable sort. *)
Definition sorts_descending (H : PyHost) : Prop :=
  ∀ (A : Type) (key : A → nat) (l : list A),
    sort_values key l ≡ₚ l
    ∧ StronglySorted (λ x y, (key y ≤ key x)%nat) (sort_values key l).

(** The Google records filed under the key [k] by the key function [key],
    in the order of the input. *)
Definition filed_under (key : record → option string) (k : string)
    (recs : list record) : list record :=
  filter (λ r, key r = Some k) recs.

(** ** Records to run the engine on *)

Module Sample.

Definition dict (l : list (string * pyval)) : record := list_to_map l.

(** A Goodreads record and three Google records, each reachable by one of
    the three look-ups. *)
Definition g_42 : record :=
  dict [("id", VStr "42"); ("isbn13", VStr "9780000000001");
        ("title", VStr "X"); ("authors", VList [VStr "A"])].
Definition gg_by_id : record :=
  dict [("gb_id", VStr "42"); ("title", VStr "Found by id")].
Definition gg_by_isbn : record :=
  dict [("gb_id", VStr "7"); ("isbn13", VStr "9780000000001");
        ("title", VStr "Found by isbn")].
Definition gg_by_key : record :=
  dict [("gb_id", VStr "8"); ("title", VStr "X"); ("authors", VStr "A")].

(** A record without ISBN, and the same with a date in the year 0. *)
Definition g_book : record :=
  dict [("id", VStr "5"); ("isbn13", VNone); ("title", VStr "The Book");
        ("authors", VList [VStr "A B"]); ("publisher", VStr "Pub");
        ("pub_date", VStr "1999")].
Definition g_year0 : record := <["pub_date" := VStr "0000-00-00"]> g_book.

(** A Goodreads record without date and its Google record with one. *)
Definition g_undated : record :=
  dict [("id", VStr "1"); ("title", VStr "T"); ("pub_date", VNone)].
Definition gg_dated : record :=
  dict [("gb_id", VStr "1"); ("pub_date", VStr "2020-05-01")].

(** A Google record of a book that is free of charge. *)
Definition zero : spec_float := S754_zero false.
Definition g_free : record := dict [("id", VStr "1"); ("title", VStr "T")].
Definition gg_free : record :=
  dict [("gb_id", VStr "1"); ("title", VStr "T");
        ("price_amount", VFloat zero); ("price_currency", VStr "EUR")].

(** A Goodreads record that has a price and little else. *)
Definition g_priced : record :=
  dict [("id", VStr "9"); ("price_amount", VStr "9.99");
        ("url", VStr "https://www.goodreads.com/book/show/9")].

(** Two Google records for one identifier, ISBN and title key. *)
Definition gg_first : record :=
  dict [("gb_id", VStr "1"); ("isbn13", VStr "9780000000001");
        ("title", VStr "X"); ("authors", VStr "A"); ("publisher", VStr "First")].
Definition gg_second : record :=
  dict [("gb_id", VStr "1"); ("isbn13", VStr "9780000000001");
        ("title", VStr "X"); ("authors", VStr "A"); ("publisher", VStr "Second")].

(** Two Goodreads records of one ISBN, equally complete, and a third that
    is more complete. *)
Definition g_alpha : record :=
  dict [("id", VStr "a"); ("isbn13", VStr "9780000000002"); ("title", VStr "Alpha")].
Definition g_beta : record :=
  dict [("id", VStr "b"); ("isbn13", VStr "9780000000002"); ("title", VStr "Beta")].
Definition g_gamma : record :=
  dict [("id", VStr "c"); ("isbn13", VStr "9780000000002"); ("title", VStr "Gamma");
        ("publisher", VStr "Pub")].



(** The look-ups over the three Google records, and the merged rows of
    the three Goodreads records of one ISBN, on the reference host. *)
Definition ix_three : indexes :=
  @build_indexes Ref.host (to_records [gg_by_id; gg_by_isbn; gg_by_key]).

Definition row_alpha : book := @merge_records Ref.host g_alpha ∅.
Definition row_beta : book := @merge_records Ref.host g_beta ∅.

End Sample.

(** ** Definitions for the further properties

    Predicates on texts and records that the properties of the second
    part are stated with, the counts of the metrics file, and the data
    of their instances. *)

(** Text in canonical white space: not empty, no white space at either end,
    and inside only single blanks.  [prev] tells that the previous character
    was white space, or that the text starts here. *)
Fixpoint single_spaced (prev : bool) (l : list ascii) : bool :=
  match l with
  | [] => negb prev
  | c :: l' =>
      if Str.is_space c
      then negb prev && Ascii.eqb c " " && single_spaced true l'
      else single_spaced false l'
  end.

Definition canonical_ws (s : string) : bool := single_spaced true (Str.chars s).

(** A list that neither starts nor ends with white space. *)
Definition trimmed (l : list ascii) : Prop :=
  (∀ c l', l = c :: l' → Str.is_space c = false)
  ∧ (∀ c l', l = l' ++ [c] → Str.is_space c = false).

Definition no_space (l : list ascii) : bool := forallb (λ c, negb (Str.is_space c)) l.

(** The [".0"] clean-up as a test on the stripped text, and what
    [normalize_str] makes of the stripped text. *)
Definition float_artifact (t : string) : bool :=
  Str.endswith t ".0" && Str.isdigit (Str.drop_last 2 t).

Definition normalize_text (t : string) : option string :=
  if String.eqb t "" || String.eqb (Str.lower t) "nan" then None
  else Some (Str.collapse_ws (if float_artifact t then Str.drop_last 2 t else t)).

(** A character of a title key: a lower-case letter, a digit, the
    underscore, or the blank. *)
Definition key_char (c : ascii) : bool :=
  (Str.is_word c && negb (Str.is_upper c)) || Ascii.eqb c " ".

(** A character of a hexadecimal digest. *)
Definition is_hex (c : ascii) : bool :=
  Str.is_digit c || ((97 <=? Str.code c) && (Str.code c <=? 102)).

Section MatchDefs.
Context `{PyHost}.

(** The Google record [r] shares a key with the Goodreads record [g]: the
    identifier, the ISBN that the matcher looks up, or the title and first
    author key. *)
Definition shares_key (g r : record) : Prop :=
  (gid_of g ≠ "" ∧ key_gbid r = Some (gid_of g))
  ∨ (∃ i, normalize_str (py_or (get g "isbn13") (get g "isbn")) = Some i
          ∧ key_isbn13 r = Some i)
  ∨ (∃ k, key_title_author g = Some k ∧ key_title_author r = Some k).

End MatchDefs.

(** A Google record that carries nothing but its two identifiers, as the
    enrichment writes it when the search found nothing
    ([{"gb_id": gr_id, "google_id": "NOT_FOUND"}]). *)
Definition only_identifiers (r : record) : Prop :=
  ∀ k, k ≠ "gb_id" → k ≠ "google_id" → get r k = VNone.

(** [series.value_counts().to_dict()]: how often each value occurs. *)
Definition count_value (m : gmap string nat) (v : string) : gmap string nat :=
  <[v := S (default 0%nat (m !! v))]> m.

Definition value_counts (l : list string) : gmap string nat :=
  fold_left count_value l ∅.

(** The counts of [quality_metrics.json].  The four percentages, which are
    rounded floats, and [generated_at] are left out. *)
Record metrics : Type := {
  rows_input_goodreads : nat;
  rows_output : nat;
  matched_with_google : nat;
  duplicates_removed : Z;
  source_preference_counts : gmap string nat
}.

Section Metrics.
Context `{PyHost}.

(** The metrics part of [run_pipeline]. *)
Definition run_metrics (ts : string) (df_good df_gg : list record) : metrics :=
  let ix := build_indexes (to_records df_gg) in
  let gr_recs := to_records df_good in
  let rows := map (process ts ix) gr_recs in
  let merged_rows := map fst rows in
  let detail_rows := map snd rows in
  let df_final := deduplicate merged_rows in
  let total_in := length df_good in
  let total_out := length df_final in
  {| rows_input_goodreads := total_in;
     rows_output := total_out;
     matched_with_google := length (filter (λ d, from_google d = true) detail_rows);
     duplicates_removed := Z.of_nat (length merged_rows) - Z.of_nat total_out;
     source_preference_counts :=
       value_counts (map source_preference df_final) |}.

End Metrics.

(** A name without any of the separators of [normalize_author]. *)
Definition plain_name (n : string) : bool :=
  forallb (λ c, negb (author_sep c)) (Str.chars n).

Section AuthorPiece.
Context `{PyHost}.

(** What [normalize_author] makes of one piece of the split. *)
Definition author_piece (p : string) : option string :=
  if truthy_str (normalize_str (VStr p)) then normalize_str (VStr p) else None.

End AuthorPiece.

Module Fixture.

(** The row that [extract_data] writes for a book that Google Books did not
    find. *)
Definition gg_not_found : record :=
  Sample.dict [("gb_id", VStr "42"); ("google_id", VStr "NOT_FOUND")].

(** A Goodreads frame with three records of one ISBN and one of another,
    and a Google frame with a record for the latter. *)
Definition df_good : list record :=
  [Sample.g_alpha; Sample.g_beta; Sample.g_gamma; Sample.g_42].
Definition df_gg : list record := [Sample.gg_by_isbn].

Definition clock : string := "2024-01-01T00:00:00Z".

End Fixture.

(** ** Checks of the definitions on known values *)

Example strip_ex : Str.strip "  a b  " = "a b".
Proof. reflexivity. Qed.

Example split_ex : Str.split_on (fun c => Str.contains c "|,;") "a,b;;c" = ["a"; "b"; ""; "c"].
Proof. reflexivity. Qed.

Example lower_ex : Str.lower "The Book!" = "the book!" /\ Str.upper "eur" = "EUR".
Proof. vm_compute. auto. Qed.

(** The test vectors of FIPS 180. *)
Example sha1_empty : Sha1.hexdigest "" = "da39a3ee5e6b4b0d3255bfef95601890afd80709".
Proof. vm_compute. reflexivity. Qed.

Example sha1_two_blocks :
  Sha1.hexdigest "abcdbcdecdefdefgefghfghighijhijkijkljklmklmnlmnomnopnopq"
  = "84983e441c3bd26ebaae4aa1f95129e5e54670f1".
Proof. vm_compute. reflexivity. Qed.

Example ref_date_ex :
  Ref.parse_iso "2020-05-01" = Some (2020, 5, 1)
  /\ Ref.parse_iso "1999" = Some (1999, 1, 1)
  /\ Ref.parse_iso "0000" = None
  /\ Ref.parse_iso "March 2020" = None.
Proof. vm_compute. repeat split. Qed.

Example ref_sort_ex :
  Ref.sort_stable fst [(1, "a"); (3, "b"); (1, "c"); (3, "d")]%nat
  = [(3, "b"); (3, "d"); (1, "a"); (1, "c")]%nat.
Proof. reflexivity. Qed.

Example ref_float_ex :
  Ref.parse_float "10" = Some (Ref.of_Z 10)
  /\ Ref.repr_float (Ref.of_Z 123) = "123.0"
  /\ Ref.parse_float "abc" = None
  /\ Ref.parse_float "9.99" = Some (S754_finite false 5623870034678907 (-49))
  /\ Ref.parse_float "nan" = Some S754_nan.
Proof. vm_compute. repeat split. Qed.

Example pat_ex :
  Pat.ymd "2020-5-1x" = Some ("2020", "5", "1")
  /\ Pat.ymd "2020-05-017" = Some ("2020", "05", "01")
  /\ Pat.ymd "2020-051-01" = None
  /\ Pat.ym "2020-051-01" = Some ("2020", "05")
  /\ Pat.ym "2020-5" = Some ("2020", "5")
  /\ Pat.y "19999" = Some "1999"
  /\ Pat.y "199" = None.
Proof. vm_compute. repeat split. Qed.

Example collapse_ex : Str.collapse_ws "a  b	 c" = "a b c".
Proof. reflexivity. Qed.

Example pad_ex : Str.zero_pad 2 5 = "05" /\ Str.zero_pad 4 1999 = "1999" /\ Str.zero_pad 2 123 = "123".
Proof. vm_compute. auto. Qed.

Example sha1_abc : Sha1.hexdigest "abc" = "a9993e364706816aba3e25717850c26c9cd0d89d".
Proof. vm_compute. reflexivity. Qed.

(** Characters beyond ASCII: slices and iteration go by characters, and
    [[^\w\s]] leaves the letters in. *)
Example points_ex :
  Str.prefix 3 "€ 10" = "€ 1" /\ Str.char_count "€ 10" = 4%nat
  /\ Str.points "a€b" = ["a"; "€"; "b"]
  /\ Str.drop_punct "café, müller!" = "café müller"
  /\ Str.encodable "café" = true
  /\ Str.encodable (Str.of_chars [Str.chr 237; Str.chr 160; Str.chr 128]) = false.
Proof. vm_compute. repeat split. Qed.

(** The quicksort of NumPy: up to seventeen keys are sorted by insertion,
    which keeps equal keys in their order; eighteen keys are partitioned
    first, and equal keys change places.  The sort of pandas, largest key
    first, on keys that differ and on eighteen equal keys. *)
Example numpy_sort_ex :
  Numpy.argsort [3; 1; 2; 1]%nat = [1; 3; 2; 0]%nat
  /\ Numpy.argsort (replicate 17 7%nat) = seq 0 17
  /\ Numpy.argsort (replicate 18 7%nat)
     = [0; 15; 14; 13; 12; 11; 10; 9; 8; 7; 6; 5; 4; 3; 2; 1; 16; 17]%nat
  /\ Numpy.nargsort [3; 1; 2; 1]%nat = [0; 2; 1; 3]%nat
  /\ Numpy.sort_frame fst [(1, "a"); (3, "b"); (1, "c"); (3, "d")]%nat
     = [(3, "b"); (3, "d"); (1, "a"); (1, "c")]%nat.
Proof. vm_compute. repeat split. Qed.

(** [str] of an [int]: 4300 digits are printed, 4301 are not. *)
Example int_str_ex :
  int_str_raises (10 ^ 4300 - 1) = false /\ int_str_raises (10 ^ 4300) = true
  /\ int_str_raises (- 10 ^ 4300) = true
  /\ @py_str_exc Ref.host (VList [VInt 7; VStr "a"]) = Ok "[7, 'a']".
Proof. vm_compute. repeat split. Qed.

(** ** Basic facts *)

Lemma get_empty k : get ∅ k = VNone.
Proof. unfold get. by rewrite lookup_empty. Qed.

Lemma truthy_dict_empty : truthy_dict ∅ = false.
Proof. unfold truthy_dict. by rewrite map_to_list_empty. Qed.

Lemma or_empty_none : or_empty None = ∅.
Proof. reflexivity. Qed.

(** ** Determinism *)

Section Determinism.
Context `{PyHost}.

(** The merged row of a Goodreads record does not read the clock. *)
Lemma process_row_clock ts1 ts2 ix g :
  (process ts1 ix g).1 = (process ts2 ix g).1.
Proof. unfold process. by destruct (match_record ix g). Qed.

Lemma process_id_clock ts1 ts2 ix g :
  detail_canonical_id (process ts1 ix g).2 = detail_canonical_id (process ts2 ix g).2.
Proof. unfold process. by destruct (match_record ix g). Qed.

(** C1.  Two runs over the same Goodreads and Google frames differ only in
    the reading of the clock; they give the same canonical rows, in the
    same order, and the same canonical identifier for every Goodreads
    record. *)
Theorem run_pipeline_deterministic ts1 ts2 df_good df_gg :
  (run_pipeline ts1 df_good df_gg).1 = (run_pipeline ts2 df_good df_gg).1
  ∧ map detail_canonical_id (run_pipeline ts1 df_good df_gg).2
    = map detail_canonical_id (run_pipeline ts2 df_good df_gg).2.
Proof.
  unfold run_pipeline; simpl. split.
  - f_equal. rewrite !map_map. apply map_ext. intros g. apply process_row_clock.
  - rewrite !map_map. apply map_ext. intros g. apply process_id_clock.
Qed.

End Determinism.

(** ** Matching *)

Section Matching.
Context `{PyHost}.

(** C2.  The matcher is a cascade: a hit on the identifier wins whatever
    the other two look-ups find; a hit on the ISBN (ISBN-13, or the legacy
    [isbn] field when [isbn13] is falsy) is taken only when the identifier
    missed; the title and first author key only when both missed; and the
    method reported is the one of the look-up that hit. *)
Theorem matching_priority ix g :
  (∀ r, lookup_id ix g = Some r → match_record ix g = (Some r, "id"))
  ∧ (∀ r, lookup_id ix g = None → lookup_isbn ix g = Some r →
       match_record ix g = (Some r, "isbn"))
  ∧ (∀ r, lookup_id ix g = None → lookup_isbn ix g = None →
       lookup_key ix g = Some r → match_record ix g = (Some r, "heuristic"))
  ∧ (lookup_id ix g = None → lookup_isbn ix g = None →
       lookup_key ix g = None → match_record ix g = (None, "none")).
Proof.
  unfold match_record. repeat split.
  - intros r ->. reflexivity.
  - intros r -> ->. reflexivity.
  - intros r -> -> ->. reflexivity.
  - intros -> -> ->. reflexivity.
Qed.

End Matching.

(** ** Uniqueness of the canonical identifier *)

Lemma drop_duplicates_from_fresh seen rows r :
  r ∈ drop_duplicates_from seen rows → (canonical_id r ∉ seen) ∧ (r ∈ rows).
Proof.
  revert seen. induction rows as [|x rows IH]; intros seen; simpl.
  - intros Hr. by apply elem_of_nil in Hr.
  - case_bool_decide as Hx.
    + intros Hr. destruct (IH _ Hr) as [Hn Hin]. split; [done|]. by right.
    + intros Hr. apply elem_of_cons in Hr as [->|Hr].
      * split; [done|]. by left.
      * destruct (IH _ Hr) as [Hn Hin]. split; [|by right].
        intros Hs. apply Hn, elem_of_union. by right.
Qed.

Lemma drop_duplicates_from_NoDup seen rows :
  NoDup (map canonical_id (drop_duplicates_from seen rows)).
Proof.
  revert seen. induction rows as [|x rows IH]; intros seen; simpl.
  - constructor.
  - case_bool_decide as Hx; [apply IH|].
    simpl. constructor; [|apply IH].
    intros Hin. apply list_elem_of_fmap in Hin as (r & Heq & Hr).
    apply drop_duplicates_from_fresh in Hr as [Hn _]. set_solver.
Qed.

Section Uniqueness.
Context `{PyHost}.

Lemma deduplicate_NoDup rows : NoDup (map canonical_id (deduplicate rows)).
Proof.
  unfold deduplicate. destruct rows; [constructor|].
  apply drop_duplicates_from_NoDup.
Qed.

(** C8.  No two rows of the canonical frame that a run saves carry the
    same [canonical_id]. *)
Theorem output_ids_unique ts df_good df_gg :
  NoDup (map canonical_id (run_pipeline ts df_good df_gg).1).
Proof. unfold run_pipeline; simpl. apply deduplicate_NoDup. Qed.

End Uniqueness.

(** ** What the normalizers raise *)

Lemma chars_of_chars l : Str.chars (Str.of_chars l) = l.
Proof. apply list_ascii_of_string_of_list_ascii. Qed.

Lemma py_int_digits l :
  l ≠ [] → forallb Str.is_digit l = true →
  py_int (Str.of_chars l) = Ok (Str.int_of_digits l).
Proof.
  intros Hne Hd. unfold py_int, Str.isdigit. rewrite chars_of_chars.
  destruct l as [|c l]; [done|]. by rewrite Hd.
Qed.

Lemma dash_digits_last_digits l d :
  Pat.dash_digits_last l = Some d → d ≠ [] ∧ forallb Str.is_digit d = true.
Proof.
  unfold Pat.dash_digits_last.
  destruct l as [|c [|a rest]]; try discriminate.
  destruct (Pat.is_dash c); simpl; [|discriminate].
  destruct (Str.is_digit a) eqn:Ha; [|discriminate].
  destruct rest as [|b rest].
  - intros [= <-]. simpl. by rewrite Ha.
  - destruct (Str.is_digit b) eqn:Hb; intros [= <-]; simpl;
      by rewrite Ha, ?Hb.
Qed.

Lemma dash_digits_dash_digits l d rest :
  Pat.dash_digits_dash l = Some (d, rest) →
  d ≠ [] ∧ forallb Str.is_digit d = true.
Proof.
  unfold Pat.dash_digits_dash.
  destruct l as [|c [|a l]]; try discriminate.
  destruct (Pat.is_dash c); simpl; [|discriminate].
  destruct (Str.is_digit a) eqn:Ha; [|discriminate].
  destruct l as [|b l]; [discriminate|].
  destruct (Pat.is_dash b).
  - intros [= <- _]. simpl. by rewrite Ha.
  - destruct (Str.is_digit b) eqn:Hb; [|discriminate].
    destruct l as [|c' l]; [discriminate|].
    destruct (Pat.is_dash c'); [|discriminate].
    intros [= <- _]. simpl. by rewrite Ha, Hb.
Qed.








Lemma chars_append s t : Str.chars (s +:+ t) = Str.chars s ++ Str.chars t.
Proof. induction s as [|c s IH]; [done|]. simpl. by rewrite IH. Qed.


Section Totality.
Context `{PyHost}.



















End Totality.

(** ** The fields of a merged row *)

Lemma truthy_dict_false d : truthy_dict d = false → d = ∅.
Proof.
  unfold truthy_dict. destruct (map_to_list d) eqn:E; [|done].
  intros _. by apply map_to_list_empty_iff.
Qed.

(** [gg.get(k) if gg else None] is [gg.get(k)]: the empty dictionary has no
    field. *)
Lemma get_guarded gg k : (if truthy_dict gg then get gg k else VNone) = get gg k.
Proof.
  destruct (truthy_dict gg) eqn:E; [done|].
  apply truthy_dict_false in E as ->. by rewrite get_empty.
Qed.

Lemma collapse_go_cons c l : Str.collapse_go false (c :: l) ≠ [].
Proof. cbn [Str.collapse_go]. destruct (Str.is_space c); discriminate. Qed.

Lemma of_chars_nonempty l : l ≠ [] → Str.of_chars l ≠ "".
Proof. by destruct l. Qed.

Lemma chars_nonempty s : s ≠ "" → Str.chars s ≠ [].
Proof. by destruct s. Qed.

Lemma collapse_ws_nonempty s : s ≠ "" → Str.collapse_ws s ≠ "".
Proof.
  intros Hs. unfold Str.collapse_ws. apply of_chars_nonempty.
  apply chars_nonempty in Hs. destruct (Str.chars s); [done|].
  apply collapse_go_cons.
Qed.

Lemma isdigit_nonempty s : Str.isdigit s = true → s ≠ "".
Proof. by destruct s. Qed.

Section MergeFacts.
Context `{PyHost}.

(** [normalize_str] never returns the empty text. *)
Lemma normalize_str_nonempty v s : normalize_str v = Some s → s ≠ "".
Proof.
  unfold normalize_str.
  set (t := Str.strip (py_str v)).
  assert (String.eqb t "" || String.eqb (Str.lower t) "nan" = false →
          t ≠ "") as Ht.
  { intros E ->. done. }
  destruct v; try done;
    (destruct (_ || _) eqn:E; [done|]; specialize (Ht eq_refl);
     destruct (Str.endswith t ".0" && Str.isdigit (Str.drop_last 2 t)) eqn:E2;
     intros [= <-]; apply collapse_ws_nonempty; [|done];
     apply andb_true_iff in E2 as [_ E2]; by apply isdigit_nonempty).
Qed.

Lemma truthy_normalize_str v : truthy_str (normalize_str v) = some (normalize_str v).
Proof.
  destruct (normalize_str v) as [s|] eqn:E; [|done].
  apply normalize_str_nonempty in E. simpl.
  destruct (String.eqb_spec s ""); done.
Qed.

Lemma or_str_normalize v o :
  or_str (normalize_str v) o
  = match normalize_str v with Some i => Some i | None => o end.
Proof.
  unfold or_str. rewrite truthy_normalize_str. by destruct (normalize_str v).
Qed.

Lemma merge_isbn13 g gg :
  isbn13 (merge_records g gg)
  = or_str (normalize_str (get g "isbn13")) (normalize_str (get gg "isbn13")).
Proof. unfold merge_records; simpl. by rewrite get_guarded. Qed.

Lemma merge_canonical_id g gg :
  let b := merge_records g gg in
  canonical_id b
  = if truthy_str (isbn13 b) then default "" (isbn13 b)
    else stable_hash_id
           [or_str (title_normalized b) (Some ""); or_str (first_author b) (Some "");
            or_str (publisher b) (Some ""); Some (year_text (pub_year b))].
Proof. reflexivity. Qed.

Lemma merge_price_amount g gg :
  price_amount (merge_records g gg)
  = or_float (safe_decimal (get gg "price_amount"))
             (safe_decimal (get g "price_amount")).
Proof. unfold merge_records; simpl. by rewrite get_guarded. Qed.

Lemma merge_price_currency g gg :
  price_currency (merge_records g gg)
  = or_str (normalize_currency (get gg "price_currency"))
           (normalize_currency (get g "price_currency")).
Proof. unfold merge_records; simpl. by rewrite get_guarded. Qed.

Lemma merge_pub_date g gg :
  pub_date (merge_records g gg)
  = choose_survivor id (iso_date (get g "pub_date"))
      (if truthy_dict gg then iso_date (get gg "pub_date") else None) "goodreads".
Proof. reflexivity. Qed.

(** With the default preference the survivor is the Goodreads value unless
    it is [None]. *)
Lemma choose_survivor_goodreads {A} (str : A → string) (a b : option A) :
  choose_survivor str a b "goodreads" = match a with Some _ => a | None => b end.
Proof.
  unfold choose_survivor. destruct a, b; try done.
  by destruct (String.eqb _ _).
Qed.

Lemma merge_unmatched_preference g :
  source_preference (merge_records g ∅)
  = if (count_true [false; false; false;
                    truthy_float (safe_decimal (get g "price_amount")); false]
        <=? count_true [truthy_str (normalize_str (get g "title"));
                        truthy_list (normalize_author (get g "authors"));
                        truthy_str (iso_date (get g "pub_date"));
                        truthy (get g "num_pages")])%nat
    then "goodreads" else "google".
Proof. unfold merge_records. rewrite truthy_dict_empty. reflexivity. Qed.

Lemma merge_unmatched_url g :
  most_complete_url (merge_records g ∅) = get g "url".
Proof.
  unfold merge_records. rewrite truthy_dict_empty. simpl.
  by destruct (_ <=? _)%nat.
Qed.

End MergeFacts.

(** ** Identity, dates, prices and the preferred source *)

Section Survivorship.
Context `{PyHost}.

Lemma field_or_empty o :
  (if truthy_str (or_str o (Some "")) then default "" (or_str o (Some "")) else "")
  = default "" o.
Proof.
  unfold or_str. destruct o as [s|]; simpl; [|done].
  destruct (String.eqb_spec s "") as [->|Hs]; simpl; [done|].
  by destruct (String.eqb_spec s "").
Qed.

Lemma field_year y :
  (if truthy_str (Some (year_text y)) then default "" (Some (year_text y)) else "")
  = year_text y.
Proof.
  simpl. by destruct (String.eqb_spec (year_text y) "") as [->|E].
Qed.

(** The rule that the code follows for the identifier.  The identifier of
    a merged row is its ISBN-13, which is the normalized ISBN-13 of the
    Goodreads record or else of the Google record; without ISBN-13 it is
    the SHA-1 digest of the normalized title, the first author, the
    publisher and the year, joined with [||], where an absent part and also
    the year 0 stand as the empty text ([year_text]). *)
Lemma canonical_id_resolution g gg :
  let b := merge_records g gg in
  isbn13 b = match normalize_str (get g "isbn13") with
             | Some i => Some i
             | None => normalize_str (get gg "isbn13")
             end
  ∧ canonical_id b
    = match isbn13 b with
      | Some i => i
      | None =>
          Sha1.hexdigest
            (Str.join "||"
               [default "" (title_normalized b); default "" (first_author b);
                default "" (publisher b); year_text (pub_year b)])
      end.
Proof.
  intros b. split.
  - unfold b. by rewrite merge_isbn13, or_str_normalize.
  - pose proof (merge_isbn13 g gg) as Hi. fold b in Hi.
    rewrite or_str_normalize in Hi.
    assert (truthy_str (isbn13 b) = some (isbn13 b)) as Ht.
    { rewrite Hi. destruct (normalize_str (get g "isbn13")) as [i|] eqn:E.
      - apply normalize_str_nonempty in E. simpl.
        by destruct (String.eqb_spec i "").
      - apply truthy_normalize_str. }
    unfold b at 1. rewrite merge_canonical_id. fold b. rewrite Ht.
    destruct (isbn13 b) as [i|]; cbn [some default]; [done|].
    unfold stable_hash_id. cbn [map].
    by rewrite !field_or_empty, field_year.
Qed.

(** The parser of [dateutil] fills what the text lacks from the default
    date, the first of January; a text whose own day is the first is
    therefore cut to its month. *)
Lemma iso_date_first_of_month parse :
  date_parser = Some parse → parse "2020-05-01" = Some (2020, 5, 1) →
  iso_date (VStr "2020-05-01") = Some "2020-05".
Proof.
  intros Hp Hd. unfold iso_date, iso_date_exc.
  change (negb (truthy (VStr "2020-05-01")) || is_float (VStr "2020-05-01"))
    with false.
  cbn [py_str_exc mbind result_bind bind]. cbv zeta.
  change (Str.strip "2020-05-01") with "2020-05-01".
  change (String.eqb "2020-05-01" "" || String.eqb (Str.lower "2020-05-01") "nan")
    with false.
  cbv iota zeta. rewrite Hp. unfold dateutil_parse. rewrite Hd.
  reflexivity.
Qed.

(** The fall-back patterns keep the day. *)
Lemma iso_date_without_dateutil :
  date_parser = None → iso_date (VStr "2020-05-01") = Some "2020-05-01".
Proof.
  intros Hp. unfold iso_date, iso_date_exc.
  change (negb (truthy (VStr "2020-05-01")) || is_float (VStr "2020-05-01"))
    with false.
  cbn [py_str_exc mbind result_bind bind]. cbv zeta.
  change (Str.strip "2020-05-01") with "2020-05-01".
  change (String.eqb "2020-05-01" "" || String.eqb (Str.lower "2020-05-01") "nan")
    with false.
  cbv iota zeta. rewrite Hp. reflexivity.
Qed.

(** The price of a merged row is the Google price when that is truthy,
    that is neither absent nor zero, and the Goodreads price otherwise. *)
Lemma merge_price_rule g gg :
  price_amount (merge_records g gg)
  = match safe_decimal (get gg "price_amount") with
    | Some x => if is_zero x then safe_decimal (get g "price_amount") else Some x
    | None => safe_decimal (get g "price_amount")
    end.
Proof.
  rewrite merge_price_amount. unfold or_float, truthy_float.
  destruct (safe_decimal (get gg "price_amount")) as [x|]; [|done].
  by destruct (is_zero x).
Qed.

(** C10.  A Goodreads record that found no Google record and has neither
    title, authors, date nor page count, but a price that parses to
    something other than zero, is marked as preferring Google: the price
    of the merged row, here the Goodreads price, counts for the Google
    side.  Its URL is nevertheless the one of the Goodreads record. *)
Theorem unmatched_can_prefer_google ts ix g :
  (match_record ix g).1 = None →
  get g "title" = VNone → get g "authors" = VNone →
  get g "pub_date" = VNone → get g "num_pages" = VNone →
  truthy_float (safe_decimal (get g "price_amount")) = true →
  source_preference (process ts ix g).1 = "google"
  ∧ most_complete_url (process ts ix g).1 = get g "url".
Proof.
  intros Hm Ht Ha Hd Hn Hp. unfold process.
  destruct (match_record ix g) as [matched method]. simpl in Hm. subst matched.
  cbn [fst or_empty]. split.
  - rewrite merge_unmatched_preference, Ht, Ha, Hd, Hn, Hp. reflexivity.
  - apply merge_unmatched_url.
Qed.

End Survivorship.

(** ** The look-up tables *)

Lemma lookup_setdefault k k' (r : record) (m : gmap string record) :
  setdefault k r m !! k'
  = match m !! k' with
    | Some r' => Some r'
    | None => if decide (k = k') then Some r else None
    end.
Proof.
  unfold setdefault. destruct (m !! k) as [r0|] eqn:E.
  - destruct (m !! k') eqn:E'; [done|].
    case_decide; [congruence|done].
  - rewrite lookup_insert. case_decide; subst.
    + by rewrite E.
    + by destruct (m !! k').
Qed.

Section Indexing.
Context `{PyHost}.

(** The title and first author table keeps, for each key, what it held
    before or else the first record filed under the key. *)
Lemma fold_index_by_key recs ix k :
  google_by_key (fold_left index_record recs ix) !! k
  = match google_by_key ix !! k with
    | Some r => Some r
    | None => head (filed_under key_title_author k recs)
    end.
Proof.
  revert ix. induction recs as [|r recs IH]; intros ix.
  - simpl. by destruct (google_by_key ix !! k).
  - cbn [fold_left]. rewrite IH. unfold filed_under. rewrite filter_cons.
    cbn [index_record google_by_key].
    destruct (key_title_author r) as [k'|] eqn:E.
    + rewrite lookup_setdefault.
      destruct (google_by_key ix !! k) as [r0|]; [done|].
      destruct (decide (k' = k)) as [->|Hne].
      * by rewrite decide_True.
      * by rewrite decide_False by congruence.
    + by rewrite decide_False.
Qed.

(** A table filled by plain assignment holds, for each key, the last
    record filed under the key, or else what it held before. *)
Lemma fold_index_by_gbid recs ix k :
  google_by_gbid (fold_left index_record recs ix) !! k
  = match last (filed_under key_gbid k recs) with
    | Some r => Some r
    | None => google_by_gbid ix !! k
    end.
Proof.
  revert ix. induction recs as [|r recs IH]; intros ix; [done|].
  cbn [fold_left]. rewrite IH. unfold filed_under. rewrite filter_cons.
  cbn [index_record google_by_gbid].
  destruct (key_gbid r) as [k'|] eqn:E.
  - destruct (decide (k' = k)) as [->|Hne].
    + rewrite decide_True by done. rewrite last_cons, lookup_insert_eq.
      by destruct (last _).
    + rewrite decide_False by congruence. by rewrite lookup_insert_ne.
  - by rewrite decide_False.
Qed.

Lemma fold_index_by_isbn13 recs ix k :
  google_by_isbn13 (fold_left index_record recs ix) !! k
  = match last (filed_under key_isbn13 k recs) with
    | Some r => Some r
    | None => google_by_isbn13 ix !! k
    end.
Proof.
  revert ix. induction recs as [|r recs IH]; intros ix; [done|].
  cbn [fold_left]. rewrite IH. unfold filed_under. rewrite filter_cons.
  cbn [index_record google_by_isbn13].
  destruct (key_isbn13 r) as [k'|] eqn:E.
  - destruct (decide (k' = k)) as [->|Hne].
    + rewrite decide_True by done. rewrite last_cons, lookup_insert_eq.
      by destruct (last _).
    + rewrite decide_False by congruence. by rewrite lookup_insert_ne.
  - by rewrite decide_False.
Qed.

(** C6, as the code has it.  Of the Google records that share a key, the
    title and first author table keeps the earliest ([setdefault]); the
    identifier table and the ISBN-13 table keep the latest (plain
    assignment overwrites). *)
Theorem index_write_order recs k :
  google_by_key (build_indexes recs) !! k
    = head (filed_under key_title_author k recs)
  ∧ google_by_gbid (build_indexes recs) !! k
    = last (filed_under key_gbid k recs)
  ∧ google_by_isbn13 (build_indexes recs) !! k
    = last (filed_under key_isbn13 k recs).
Proof.
  unfold build_indexes. repeat split.
  - rewrite fold_index_by_key. cbn. by rewrite lookup_empty.
  - rewrite fold_index_by_gbid. cbn. rewrite lookup_empty.
    by destruct (last _).
  - rewrite fold_index_by_isbn13. cbn. rewrite lookup_empty.
    by destruct (last _).
Qed.

End Indexing.

(** ** Deduplication *)

(** The stable sort of the reference host meets the contract. *)
Section SortContract.
Context {A : Type} (key : A → nat).

Let desc (x y : A) : Prop := (key y ≤ key x)%nat.

Lemma insert_desc_perm x l : Ref.insert_desc key x l ≡ₚ x :: l.
Proof.
  induction l as [|y l IH]; simpl; [done|].
  destruct (key y <=? key x)%nat; [done|].
  rewrite IH. apply Permutation_swap.
Qed.

Lemma sort_stable_perm l : Ref.sort_stable key l ≡ₚ l.
Proof.
  induction l as [|x l IH]; simpl; [done|].
  by rewrite insert_desc_perm, IH.
Qed.

Lemma insert_desc_sorted x l :
  StronglySorted desc l → StronglySorted desc (Ref.insert_desc key x l).
Proof.
  induction 1 as [|y l Hl IH Hy]; simpl.
  - repeat constructor.
  - destruct (key y <=? key x)%nat eqn:E.
    + apply Nat.leb_le in E. constructor; [by constructor|].
      constructor; [done|].
      eapply Forall_impl; [exact Hy|]. unfold desc. intros z Hz. lia.
    + apply Nat.leb_gt in E. constructor; [done|].
      rewrite insert_desc_perm. constructor; [unfold desc; lia|done].
Qed.

Lemma sort_stable_sorted l : StronglySorted desc (Ref.sort_stable key l).
Proof.
  induction l as [|x l IH]; simpl; [constructor|].
  by apply insert_desc_sorted.
Qed.

End SortContract.

Lemma ref_host_sorts : sorts_descending Ref.host.
Proof.
  intros A key l. split; [apply sort_stable_perm|apply sort_stable_sorted].
Qed.


Lemma drop_duplicates_from_sublist seen rows :
  drop_duplicates_from seen rows `sublist_of` rows.
Proof.
  revert seen. induction rows as [|x rows IH]; intros seen; simpl; [done|].
  case_bool_decide.
  - by apply sublist_cons.
  - by apply sublist_skip.
Qed.


Section Deduplication.
Context `{PyHost}.
Hypothesis Hsort : sorts_descending H.


End Deduplication.

(** ** The engine on concrete records *)

(** The example of the specification: without ISBN the identifier is the
    digest of the four parts. *)
Example canonical_id_the_book :
  canonical_id (@merge_records Ref.host Sample.g_book ∅)
  = stable_hash_id [Some "the book"; Some "A B"; Some "Pub"; Some "1999"].
Proof. vm_compute. reflexivity. Qed.

Lemma matching_priority_witness :
  @lookup_id Ref.host Sample.ix_three Sample.g_42 = Some Sample.gg_by_id
  ∧ @lookup_isbn Ref.host Sample.ix_three Sample.g_42 = Some Sample.gg_by_isbn
  ∧ @lookup_key Ref.host Sample.ix_three Sample.g_42 = Some Sample.gg_by_key
  ∧ @match_record Ref.host Sample.ix_three Sample.g_42
    = (Some Sample.gg_by_id, "id").
Proof.
  assert (@lookup_id Ref.host Sample.ix_three Sample.g_42 = Some Sample.gg_by_id)
    as Hid by (vm_compute; reflexivity).
  split; [exact Hid|]. split; [vm_compute; reflexivity|].
  split; [vm_compute; reflexivity|].
  exact (proj1 (@matching_priority Ref.host Sample.ix_three Sample.g_42) _ Hid).
Defined.

Lemma unmatched_can_prefer_google_witness :
  source_preference (@process Ref.host "2024-01-01T00:00:00Z" no_indexes Sample.g_priced).1
  = "google"
  ∧ most_complete_url (@process Ref.host "2024-01-01T00:00:00Z" no_indexes Sample.g_priced).1
    = get Sample.g_priced "url".
Proof.
  apply (@unmatched_can_prefer_google Ref.host); vm_compute; reflexivity.
Defined.


(** C3.  On a date in the year 0 the merged row carries the year 0, and
    its identifier is the digest of the three other parts and the empty
    text: [str(pub_year or "")] takes the year 0 for a missing year.  The
    identifier is not the digest of the four parts of the row. *)
Theorem canonical_id_year_zero :
  pub_year (@merge_records Ref.host Sample.g_year0 ∅) = Some 0
  ∧ isbn13 (@merge_records Ref.host Sample.g_year0 ∅) = None
  ∧ canonical_id (@merge_records Ref.host Sample.g_year0 ∅)
    = Sha1.hexdigest "the book||A B||Pub||"
  ∧ claimed_canonical_id (@merge_records Ref.host Sample.g_year0 ∅)
    = Sha1.hexdigest "the book||A B||Pub||0"
  ∧ canonical_id (@merge_records Ref.host Sample.g_year0 ∅)
    ≠ claimed_canonical_id (@merge_records Ref.host Sample.g_year0 ∅).
Proof.
  split; [vm_compute; reflexivity|]. split; [vm_compute; reflexivity|].
  split; [vm_compute; reflexivity|]. split; [vm_compute; reflexivity|].
  vm_compute. discriminate.
Qed.


(** C5.  With [dateutil] at hand, a Goodreads record without date and a
    Google record dated 2020-05-01 merge to the date 2020-05: the day is
    lost. *)
Theorem null_date_loses_day :
  @iso_date Ref.host (get Sample.g_undated "pub_date") = None
  ∧ pub_date (@merge_records Ref.host Sample.g_undated Sample.gg_dated)
    = Some "2020-05".
Proof. split; vm_compute; reflexivity. Qed.

(** C6, the claim as worded fails on two Google records of one identifier
    and one ISBN-13: both tables hold the later record. *)
Lemma exact_tables_keep_latest :
  @key_gbid Ref.host Sample.gg_first = Some "1"
  ∧ @key_gbid Ref.host Sample.gg_second = Some "1"
  ∧ @key_isbn13 Ref.host Sample.gg_first = Some "9780000000001"
  ∧ @key_isbn13 Ref.host Sample.gg_second = Some "9780000000001"
  ∧ google_by_gbid (@build_indexes Ref.host [Sample.gg_first; Sample.gg_second]) !! "1"
    ≠ Some Sample.gg_first
  ∧ google_by_isbn13 (@build_indexes Ref.host [Sample.gg_first; Sample.gg_second])
      !! "9780000000001"
    ≠ Some Sample.gg_first.
Proof.
  repeat split; try (vm_compute; reflexivity); vm_compute; discriminate.
Qed.

(** C7.  A Google record that carries the price 0.0 and a Goodreads record
    without price merge to a row without price: the Google price is not
    taken. *)
Theorem zero_price_dropped :
  @safe_decimal Ref.host (get Sample.gg_free "price_amount") = Some Sample.zero
  ∧ @safe_decimal Ref.host (get Sample.g_free "price_amount") = None
  ∧ price_amount (@merge_records Ref.host Sample.g_free Sample.gg_free) = None.
Proof. repeat split; vm_compute; reflexivity. Qed.


(** Of two rows of equal score the earlier is kept: a column of up to
    seventeen keys goes to the insertion sort of the quicksort, which
    leaves equal keys in their order. *)
Example two_tied_rows_earlier_kept :
  @deduplicate Numpy.host [Sample.row_alpha; Sample.row_beta] = [Sample.row_alpha]
  ∧ @deduplicate Ref.host [Sample.row_alpha; Sample.row_beta] = [Sample.row_alpha].
Proof. split; vm_compute; reflexivity. Qed.

(** The date precision rule on the reference host. *)
Example iso_date_precision :
  @iso_date Ref.host (VStr "2020") = Some "2020"
  ∧ @iso_date Ref.host (VStr "2020-03") = Some "2020-03"
  ∧ @iso_date Ref.host (VStr "2020-03-15") = Some "2020-03-15"
  ∧ @iso_date Ref.host (VStr "not a date") = None.
Proof. vm_compute. repeat split. Qed.

(** * Further properties of the normalizers, the merge and the run *)

(** ** White space: stripping and collapsing *)

#[local] Arguments Str.is_space : simpl never.

(** *** Lists of characters *)

Lemma of_chars_chars s : Str.of_chars (Str.chars s) = s.
Proof. apply string_of_list_ascii_of_string. Qed.

Lemma drop_while_head {A} (p : A → bool) l c l' :
  Str.drop_while p l = c :: l' → p c = false.
Proof.
  induction l as [|x l IH]; simpl; [done|].
  destruct (p x) eqn:E; [done|]. by intros [= <- _].
Qed.

Lemma drop_while_suffix {A} (p : A → bool) l :
  ∃ pre, l = pre ++ Str.drop_while p l.
Proof.
  induction l as [|x l [pre IH]]; simpl; [by exists []|].
  destruct (p x).
  - exists (x :: pre). simpl. by f_equal.
  - by exists [].
Qed.

Lemma drop_while_id {A} (p : A → bool) c l :
  p c = false → Str.drop_while p (c :: l) = c :: l.
Proof. simpl. by intros ->. Qed.

Lemma strip_chars_trimmed l :
  trimmed (rev (Str.drop_while Str.is_space (rev (Str.drop_while Str.is_space l)))).
Proof.
  set (m := Str.drop_while Str.is_space l).
  set (m' := Str.drop_while Str.is_space (rev m)).
  split.
  - intros c l' E.
    destruct (drop_while_suffix Str.is_space (rev m)) as [pre Hpre].
    fold m' in Hpre.
    assert (m' = rev l' ++ [c]) as Hm'.
    { rewrite <- (rev_involutive m'), E. simpl. done. }
    rewrite Hm', app_assoc in Hpre.
    assert (m = c :: rev (pre ++ rev l')) as Hm.
    { rewrite <- (rev_involutive m), Hpre, rev_app_distr. done. }
    by apply (drop_while_head Str.is_space l) in Hm.
  - intros c l' E.
    assert (m' = c :: rev l') as Hm'.
    { rewrite <- (rev_involutive m'), E, rev_app_distr. done. }
    by apply drop_while_head in Hm'.
Qed.

Lemma trimmed_strip l :
  trimmed l → rev (Str.drop_while Str.is_space (rev (Str.drop_while Str.is_space l))) = l.
Proof.
  intros [Hh Ht]. destruct l as [|c l]; [done|].
  rewrite drop_while_id by eauto.
  destruct (rev (c :: l)) as [|d r] eqn:E.
  { apply (f_equal (@rev ascii)) in E. by rewrite rev_involutive in E. }
  rewrite drop_while_id.
  - by rewrite <- E, rev_involutive.
  - apply (Ht d (rev r)). rewrite <- (rev_involutive (c :: l)), E. done.
Qed.

Lemma single_spaced_trimmed l : single_spaced true l = true → trimmed l.
Proof.
  intros H. split.
  - intros c l' ->. simpl in H.
    destruct (Str.is_space c) eqn:E; congruence.
  - intros c l' ->.
    assert (∀ b, single_spaced b (l' ++ [c]) = true → Str.is_space c = false)
      as Hgen; [|by eapply Hgen].
    clear H. induction l' as [|x l' IH]; intros b; simpl.
    + destruct (Str.is_space c); [|done].
      rewrite andb_false_r. intros Hf. discriminate Hf.
    + destruct (Str.is_space x); [|apply IH].
      intros Hx. apply andb_true_iff in Hx as [_ Hx]. by eapply IH.
Qed.

Lemma single_spaced_collapse b l :
  single_spaced b l = true → Str.collapse_go b l = l.
Proof.
  revert b. induction l as [|c l IH]; intros b; [done|]. simpl.
  destruct (Str.is_space c).
  - intros [[Hb Hc%Ascii.eqb_eq]%andb_true_iff Hl]%andb_true_iff.
    destruct b; [done|]. subst c. by rewrite IH.
  - intros Hl. by rewrite IH.
Qed.

Lemma single_spaced_collapse_start l :
  single_spaced true l = true → Str.collapse_go false l = l.
Proof.
  destruct l as [|c l]; [done|]. simpl.
  destruct (Str.is_space c); [done|].
  intros Hl. by rewrite single_spaced_collapse.
Qed.

(** Collapsing a list that ends in a character that is no white space. *)
Lemma collapse_single_spaced b l c :
  Str.is_space c = false →
  single_spaced b (Str.collapse_go b (l ++ [c])) = true.
Proof.
  intros Hc. revert b. induction l as [|x l IH]; intros b; simpl.
  - by rewrite Hc; simpl; rewrite Hc.
  - destruct (Str.is_space x) eqn:Hx.
    + destruct b; [apply IH|]. simpl. by rewrite IH.
    + simpl. by rewrite Hx, IH.
Qed.

Lemma collapse_trimmed l :
  l ≠ [] → trimmed l → single_spaced true (Str.collapse_go false l) = true.
Proof.
  intros Hne [Hh Ht].
  destruct l as [|x l]; [done|].
  assert (Str.is_space x = false) as Hx by eauto.
  simpl. rewrite Hx. simpl. rewrite Hx.
  destruct (rev l) as [|c r] eqn:E.
  - apply (f_equal (@rev ascii)) in E. rewrite rev_involutive in E. by subst l.
  - assert (l = rev r ++ [c]) as ->.
    { rewrite <- (rev_involutive l), E. done. }
    apply collapse_single_spaced. apply (Ht c (x :: rev r)). done.
Qed.

#[local] Arguments Str.is_digit : simpl never.
#[local] Arguments Str.lower_char : simpl never.

(** *** Characters, by cases *)

Ltac ascii_cases c :=
  destruct c as [[] [] [] [] [] [] [] []]; vm_compute; try reflexivity; try discriminate.

Lemma digit_not_space c : Str.is_digit c = true → Str.is_space c = false.
Proof. ascii_cases c. Qed.

Lemma lower_char_space c : Str.is_space (Str.lower_char c) = Str.is_space c.
Proof. ascii_cases c. Qed.

Lemma lower_char_digit c : Str.is_digit c = true → Str.lower_char c = c.
Proof. ascii_cases c. Qed.

Lemma digits_no_space l : forallb Str.is_digit l = true → no_space l = true.
Proof.
  unfold no_space. induction l as [|c l IH]; simpl; [done|].
  intros [Hc Hl]%andb_true_iff. by rewrite (digit_not_space c), IH.
Qed.

Lemma no_space_trimmed l : no_space l = true → trimmed l.
Proof.
  unfold no_space. intros Hl. rewrite forallb_forall in Hl.
  split; intros c l' ->.
  - apply negb_true_iff, Hl. by left.
  - apply negb_true_iff, Hl, in_or_app. right. by left.
Qed.

Lemma collapse_no_space l : no_space l = true → Str.collapse_go false l = l.
Proof.
  unfold no_space. induction l as [|c l IH]; simpl; [done|].
  intros [Hc%negb_true_iff Hl]%andb_true_iff. by rewrite Hc, IH.
Qed.

(** A collapsed text without white space was without white space before. *)
Lemma collapse_no_space_inv l :
  no_space (Str.collapse_go false l) = true → Str.collapse_go false l = l.
Proof.
  unfold no_space. induction l as [|c l IH]; simpl; [done|].
  destruct (Str.is_space c) eqn:Hc; simpl.
  - intros Hf. discriminate Hf.
  - rewrite Hc. simpl. intros Hl. by rewrite IH.
Qed.

Lemma chars_inj s t : Str.chars s = Str.chars t → s = t.
Proof. intros E. by rewrite <- (of_chars_chars s), E, of_chars_chars. Qed.

Lemma chars_lower s : Str.chars (Str.lower s) = map Str.lower_char (Str.chars s).
Proof. unfold Str.lower. apply chars_of_chars. Qed.

Lemma chars_strip s :
  Str.chars (Str.strip s)
  = rev (Str.drop_while Str.is_space (rev (Str.drop_while Str.is_space (Str.chars s)))).
Proof. unfold Str.strip. apply chars_of_chars. Qed.

Lemma strip_trimmed s : trimmed (Str.chars (Str.strip s)).
Proof. rewrite chars_strip. apply strip_chars_trimmed. Qed.

Lemma strip_of_trimmed s : trimmed (Str.chars s) → Str.strip s = s.
Proof.
  intros Ht. apply chars_inj. rewrite chars_strip. by apply trimmed_strip.
Qed.

(** A text whose lower case is [nan] has no white space. *)
Lemma lower_nan_no_space s : Str.lower s = "nan" → no_space (Str.chars s) = true.
Proof.
  intros E. apply (f_equal Str.chars) in E. rewrite chars_lower in E.
  unfold no_space.
  destruct (Str.chars s) as [|a [|b [|c [|d l]]]]; try discriminate.
  injection E as Ea Eb Ec. simpl.
  rewrite <- (lower_char_space a), <- (lower_char_space b), <- (lower_char_space c).
  by rewrite Ea, Eb, Ec.
Qed.

Lemma digits_lower_not_nan s : Str.isdigit s = true → Str.lower s ≠ "nan".
Proof.
  unfold Str.isdigit. intros Hd E.
  apply (f_equal Str.chars) in E. rewrite chars_lower in E.
  destruct (Str.chars s) as [|a l]; [done|].
  simpl in Hd. apply andb_true_iff in Hd as [Ha _].
  injection E as Ea _. rewrite (lower_char_digit a Ha) in Ea. by subst a.
Qed.

(** The suffix [.0] *)
Lemma endswith_dot0 s :
  Str.endswith s ".0" = true → ∃ pre, Str.chars s = pre ++ ["."%char; "0"%char].
Proof.
  unfold Str.endswith. change (rev (Str.chars ".0")) with ["0"%char; "."%char].
  destruct (rev (Str.chars s)) as [|a [|b r]] eqn:E; cbn [Str.starts_with].
  - done.
  - destruct (Ascii.eqb "0" a); intros Hf; discriminate Hf.
  - destruct (Ascii.eqb_spec "0" a) as [<-|]; [|done].
    destruct (Ascii.eqb_spec "." b) as [<-|]; [|done].
    intros _. exists (rev r).
    rewrite <- (rev_involutive (Str.chars s)), E. simpl. by rewrite <- app_assoc.
Qed.

Lemma endswith_dot0_app pre :
  Str.endswith (Str.of_chars (pre ++ ["."%char; "0"%char])) ".0" = true.
Proof.
  unfold Str.endswith. rewrite chars_of_chars, rev_app_distr. reflexivity.
Qed.

Lemma drop_last_dot0 pre x y :
  Str.drop_last 2 (Str.of_chars (pre ++ [x; y])) = Str.of_chars pre.
Proof.
  unfold Str.drop_last. rewrite chars_of_chars. f_equal.
  rewrite length_app. simpl.
  replace (length pre + 2 - 2)%nat with (length pre) by lia.
  by rewrite take_app_length.
Qed.

Lemma isdigit_chars s :
  Str.isdigit s = true → Str.chars s ≠ [] ∧ forallb Str.is_digit (Str.chars s) = true.
Proof. unfold Str.isdigit. by destruct (Str.chars s). Qed.

Lemma digits_not_dot0 s : Str.isdigit s = true → Str.endswith s ".0" = false.
Proof.
  intros [_ Hd]%isdigit_chars.
  destruct (Str.endswith s ".0") eqn:E; [|done].
  apply endswith_dot0 in E as [pre E]. rewrite E, forallb_app in Hd.
  apply andb_true_iff in Hd as [_ Hd]. vm_compute in Hd. discriminate Hd.
Qed.

(** ** What [normalize_str] returns *)

Lemma artifact_no_space s : float_artifact s = true → no_space (Str.chars s) = true.
Proof.
  unfold float_artifact. intros [He Hd]%andb_true_iff.
  apply endswith_dot0 in He as [pre E].
  assert (s = Str.of_chars (pre ++ ["."%char; "0"%char])) as Hs.
  { apply chars_inj. by rewrite chars_of_chars. }
  rewrite Hs, drop_last_dot0 in Hd.
  apply isdigit_chars in Hd as [_ Hd]. rewrite chars_of_chars in Hd.
  rewrite E. unfold no_space. rewrite forallb_app.
  apply andb_true_iff. split; [by apply digits_no_space|reflexivity].
Qed.

(** The result of [normalize_text] on a stripped text: canonical white
    space, not [nan], no artifact left. *)
Lemma normalize_text_result t s :
  trimmed (Str.chars t) → normalize_text t = Some s →
  canonical_ws s = true ∧ Str.lower s ≠ "nan" ∧ float_artifact s = false.
Proof.
  intros Htr. unfold normalize_text.
  destruct (String.eqb_spec t "") as [|Ht]; [done|].
  destruct (String.eqb_spec (Str.lower t) "nan") as [|Hn]; [done|]. simpl.
  destruct (float_artifact t) eqn:Hf.
  - (* the digits before the artifact *)
    unfold float_artifact in Hf. apply andb_true_iff in Hf as [_ Hd].
    set (d := Str.drop_last 2 t) in *.
    destruct (isdigit_chars d Hd) as [Hne Hds].
    pose proof (digits_no_space _ Hds) as Hns.
    intros [= <-]. unfold Str.collapse_ws.
    rewrite (collapse_no_space _ Hns), of_chars_chars.
    split; [|split].
    + unfold canonical_ws.
      rewrite <- (collapse_no_space _ Hns).
      apply collapse_trimmed; [done|by apply no_space_trimmed].
    + by apply digits_lower_not_nan.
    + unfold float_artifact. by rewrite digits_not_dot0.
  - intros [= <-]. unfold Str.collapse_ws.
    set (s := Str.of_chars (Str.collapse_go false (Str.chars t))).
    assert (Str.chars s = Str.collapse_go false (Str.chars t)) as Hcs
      by apply chars_of_chars.
    assert (Str.chars t ≠ []) as Hne.
    { intros E. apply Ht. apply chars_inj. by rewrite E. }
    assert (no_space (Str.chars s) = true → s = t) as Hsame.
    { rewrite Hcs. intros Hns. apply chars_inj. rewrite Hcs.
      by apply collapse_no_space_inv. }
    split; [|split].
    + unfold canonical_ws. rewrite Hcs. by apply collapse_trimmed.
    + intros E. apply Hn. rewrite <- Hsame; [done|].
      by apply lower_nan_no_space.
    + destruct (float_artifact s) eqn:Hfs; [|done].
      rewrite Hsame in Hfs by (by apply artifact_no_space). congruence.
Qed.

Lemma normalize_text_fixed s :
  canonical_ws s = true → Str.lower s ≠ "nan" → float_artifact s = false →
  normalize_text s = Some s.
Proof.
  intros Hc Hn Hf. unfold normalize_text.
  assert (s ≠ "") as Hs by (intros ->; done).
  destruct (String.eqb_spec s ""); [done|].
  destruct (String.eqb_spec (Str.lower s) "nan"); [done|]. simpl.
  rewrite Hf. f_equal. unfold Str.collapse_ws.
  rewrite single_spaced_collapse_start by done. apply of_chars_chars.
Qed.

Section NormalizeStr.
Context `{PyHost}.

Lemma normalize_str_text v :
  normalize_str v
  = match v with
    | VNone => None
    | _ => normalize_text (Str.strip (py_str v))
    end.
Proof. by destruct v. Qed.

Lemma normalize_str_result v s :
  normalize_str v = Some s →
  canonical_ws s = true ∧ Str.lower s ≠ "nan" ∧ float_artifact s = false.
Proof.
  rewrite normalize_str_text.
  destruct v; try done; apply normalize_text_result, strip_trimmed.
Qed.

(** X1: what [normalize_str] returns has no white space at either end and
    only single blanks inside. *)
Theorem normalize_str_canonical_ws v s :
  normalize_str v = Some s → canonical_ws s = true.
Proof. intros Hs. by apply normalize_str_result in Hs as (? & _ & _). Qed.

Lemma normalize_str_fixed v s :
  normalize_str v = Some s → normalize_str (VStr s) = Some s.
Proof.
  intros Hs. apply normalize_str_result in Hs as (Hc & Hn & Hf).
  rewrite normalize_str_text.
  rewrite strip_of_trimmed by (by apply single_spaced_trimmed).
  by apply normalize_text_fixed.
Qed.

(** X2: [normalize_str] is idempotent: a text it returned is returned as it
    is. *)
Theorem normalize_str_idempotent v s :
  normalize_str v = Some s → normalize_str (VStr s) = Some s.
Proof. exact (normalize_str_fixed v s). Qed.

(** X3: the float artifact: digits followed by [.0] normalize to the
    digits, and so does what [normalize_str] makes of the digits alone. *)
Theorem normalize_str_float_artifact d :
  Str.isdigit d = true →
  normalize_str (VStr (d +:+ ".0")) = Some d
  ∧ normalize_str (VStr d) = Some d.
Proof.
  intros Hd. destruct (isdigit_chars d Hd) as [Hne Hds].
  pose proof (digits_no_space _ Hds) as Hns.
  assert (d +:+ ".0" = Str.of_chars (Str.chars d ++ ["."%char; "0"%char])) as Ed.
  { apply chars_inj. by rewrite chars_of_chars, chars_append. }
  assert (canonical_ws d = true) as Hcd.
  { unfold canonical_ws. rewrite <- (collapse_no_space _ Hns).
    apply collapse_trimmed; [done|by apply no_space_trimmed]. }
  split.
  - rewrite normalize_str_text. cbn [py_str].
    assert (no_space (Str.chars (d +:+ ".0")) = true) as Hns2.
    { rewrite chars_append. unfold no_space. rewrite forallb_app.
      apply andb_true_iff. split; [done|reflexivity]. }
    rewrite strip_of_trimmed by (by apply no_space_trimmed).
    unfold normalize_text.
    destruct (String.eqb_spec (d +:+ ".0") "") as [E|_].
    { apply (f_equal Str.chars) in E. rewrite chars_append in E.
      by destruct (Str.chars d). }
    destruct (String.eqb_spec (Str.lower (d +:+ ".0")) "nan") as [E|_].
    { apply (f_equal Str.chars) in E. rewrite chars_lower, chars_append in E.
      destruct (Str.chars d) as [|a l]; [done|].
      simpl in Hds. apply andb_true_iff in Hds as [Ha _].
      injection E as Ea _. rewrite (lower_char_digit a Ha) in Ea. by subst a. }
    simpl. unfold float_artifact.
    rewrite Ed, endswith_dot0_app, drop_last_dot0, of_chars_chars, Hd. simpl.
    unfold Str.collapse_ws. by rewrite collapse_no_space, of_chars_chars.
  - rewrite normalize_str_text. cbn [py_str].
    rewrite strip_of_trimmed by (by apply no_space_trimmed).
    apply normalize_text_fixed; [done|by apply digits_lower_not_nan|].
    unfold float_artifact. by rewrite digits_not_dot0.
Qed.

End NormalizeStr.

(** ** Title keys and author names *)

(** *** Where the characters of a result come from *)

Lemma drop_while_incl {A} (p : A → bool) l c :
  In c (Str.drop_while p l) → In c l.
Proof.
  destruct (drop_while_suffix p l) as [pre E]. intros Hc.
  rewrite E. apply in_or_app. by right.
Qed.

Lemma strip_chars_incl s c : In c (Str.chars (Str.strip s)) → In c (Str.chars s).
Proof.
  rewrite chars_strip. intros Hc.
  apply in_rev, drop_while_incl, in_rev in Hc. by apply drop_while_incl in Hc.
Qed.

Lemma collapse_go_chars b l c :
  In c (Str.collapse_go b l) → c = " "%char ∨ (In c l ∧ Str.is_space c = false).
Proof.
  revert b. induction l as [|x l IH]; intros b; simpl; [done|].
  destruct (Str.is_space x) eqn:Hx.
  - destruct b.
    + intros Hc. destruct (IH _ Hc) as [?|[? ?]]; auto.
    + intros [<-|Hc]; [by left|]. destruct (IH _ Hc) as [?|[? ?]]; auto.
  - intros [<-|Hc]; [by right; auto|]. destruct (IH _ Hc) as [?|[? ?]]; auto.
Qed.

Lemma lower_not_upper c : Str.is_upper (Str.lower_char c) = false.
Proof. ascii_cases c. Qed.

Lemma word_or_space_key c :
  Str.is_upper c = false → Str.is_space c = false → Str.is_ascii c = true →
  Str.is_word c || Str.is_space c || negb (Str.is_ascii c) = true →
  key_char c = true.
Proof. ascii_cases c. Qed.

Section Keys.
Context `{PyHost}.

(** X4: the ASCII characters of a title key are lower-case letters,
    digits, underscores and blanks: no ASCII punctuation, no ASCII
    upper-case letter and no white space other than the blank is left in
    it. *)
Theorem normalize_title_chars v k :
  normalize_title v = Some k →
  forallb (λ c, negb (Str.is_ascii c) || key_char c) (Str.chars k) = true.
Proof.
  unfold normalize_title. destruct (negb _); [done|]. intros [= <-].
  apply forallb_forall. intros c Hc.
  apply strip_chars_incl in Hc. unfold Str.collapse_ws in Hc.
  rewrite chars_of_chars in Hc.
  apply collapse_go_chars in Hc as [->|[Hc Hs]]; [done|].
  unfold Str.drop_punct in Hc. rewrite chars_of_chars in Hc.
  apply list_elem_of_In, list_elem_of_filter in Hc as [Hw Hc].
  apply list_elem_of_In in Hc. rewrite chars_lower in Hc.
  apply in_map_iff in Hc as (c0 & <- & _).
  destruct (Str.is_ascii (Str.lower_char c0)) eqn:Ha; [|done].
  cbn [negb orb].
  apply word_or_space_key; [apply lower_not_upper|done|done|].
  rewrite Ha. by apply Is_true_eq_true.
Qed.

Lemma normalize_author_elem v a :
  a ∈ normalize_author v → a ≠ "" ∧ normalize_str (VStr a) = Some a.
Proof.
  assert (∀ (A : Type) (f : A → pyval) (l : list A),
            a ∈ omap (λ p, if truthy_str (normalize_str (f p))
                           then normalize_str (f p) else None) l →
            a ≠ "" ∧ normalize_str (VStr a) = Some a) as Hgen.
  { intros A f l Ha. apply list_elem_of_omap in Ha as (p & _ & Hp).
    destruct (truthy_str _); [|done].
    split; [by eapply normalize_str_nonempty|by eapply normalize_str_fixed]. }
  unfold normalize_author. destruct (negb _ || _).
  { intros Ha. by apply elem_of_nil in Ha. }
  destruct v; try (intros Ha; by apply elem_of_nil in Ha).
  - apply (Hgen string VStr).
  - apply (Hgen pyval id).
Qed.

(** X5: the names that [normalize_author] returns are not empty and are
    left as they are by [normalize_str]. *)
Theorem normalize_author_normalized v a :
  a ∈ normalize_author v → a ≠ "" ∧ normalize_str (VStr a) = Some a.
Proof. exact (normalize_author_elem v a). Qed.

(** X6: [get_first_author] returns the empty text exactly when
    [normalize_author] finds no author: a name it returns is never empty. *)
Theorem get_first_author_empty v :
  get_first_author v = "" ↔ normalize_author v = [].
Proof.
  unfold get_first_author.
  destruct (normalize_author v) as [|a l] eqn:E; [done|].
  split; [|done]. intros ->.
  assert (("" : string) ∈ normalize_author v) as Ha by (rewrite E; by left).
  by apply normalize_author_elem in Ha as [? _].
Qed.

End Keys.

(** ** The merge of names *)

Section MergeNames.
Context `{PyHost}.

(** One turn of the merging loop, on a state whose set holds what the list
    holds. *)
Lemma merge_step_spec seen merged a :
  (∀ n, n ∈ seen ↔ n ∈ merged) →
  merge_step (seen, merged) a
  = match normalize_str (VStr a) with
    | Some n => if decide (n ∈ merged) then (seen, merged)
                else ({[n]} ∪ seen, merged ++ [n])
    | None => (seen, merged)
    end.
Proof.
  intros Hs. unfold merge_step.
  destruct (normalize_str (VStr a)) as [n|] eqn:E; [|done].
  pose proof (normalize_str_nonempty _ _ E) as Hn. simpl.
  destruct (String.eqb_spec n ""); [done|]. simpl.
  case_bool_decide as Hin; case_decide as Hin'; try done.
  - by apply Hs in Hin.
  - by apply Hs in Hin'.
Qed.

(** The loop appends to the list the new names, each once, in the order in
    which they first occur, and keeps the set in step with the list. *)
Lemma fold_merge_step l seen merged :
  (∀ n, n ∈ seen ↔ n ∈ merged) → NoDup merged →
  ∃ more,
    (fold_left merge_step l (seen, merged)).2 = merged ++ more
    ∧ NoDup (merged ++ more)
    ∧ (∀ n, n ∈ more ↔
            (n ∉ merged) ∧ ∃ a, a ∈ l ∧ normalize_str (VStr a) = Some n)
    ∧ (∀ n, n ∈ (fold_left merge_step l (seen, merged)).1 ↔ n ∈ merged ++ more).
Proof.
  revert seen merged. induction l as [|a l IH]; intros seen merged Hs Hnd.
  - exists []. rewrite app_nil_r. split; [done|]. split; [done|].
    split; [|done]. intros x. split.
    + intros Hx. by apply elem_of_nil in Hx.
    + intros [_ (a & Ha & _)]. by apply elem_of_nil in Ha.
  - cbn [fold_left]. rewrite merge_step_spec by done.
    assert (∀ seen merged,
              (∀ n, n ∈ seen ↔ n ∈ merged) → NoDup merged →
              (∀ n, normalize_str (VStr a) = Some n → n ∈ merged) →
              ∃ more,
                (fold_left merge_step l (seen, merged)).2 = merged ++ more
                ∧ NoDup (merged ++ more)
                ∧ (∀ n, n ∈ more ↔
                        (n ∉ merged)
                        ∧ ∃ a', a' ∈ a :: l ∧ normalize_str (VStr a') = Some n)
                ∧ (∀ n, n ∈ (fold_left merge_step l (seen, merged)).1
                        ↔ n ∈ merged ++ more))
      as Hskip.
    { intros seen' merged' Hs' Hnd' Ha.
      destruct (IH seen' merged' Hs' Hnd') as (more & Hm & Hnd'' & Hmore & Hseen).
      exists more. split; [done|]. split; [done|]. split; [|done].
      intros x. rewrite Hmore. split.
      - intros [Hx (a' & Ha' & Hn')]. split; [done|].
        exists a'. split; [by right|done].
      - intros [Hx (a' & Ha' & Hn')]. split; [done|].
        apply elem_of_cons in Ha' as [->|Ha']; [|eauto].
        by apply Ha in Hn'. }
    destruct (normalize_str (VStr a)) as [n|] eqn:E.
    + destruct (decide (n ∈ merged)) as [Hin|Hin].
      * apply Hskip; [done..|]. by intros ? [= <-].
      * destruct (IH ({[n]} ∪ seen) (merged ++ [n]))
          as (more & Hm & Hnd' & Hmore & Hseen).
        { intros x. rewrite elem_of_union, elem_of_singleton, elem_of_app,
            list_elem_of_singleton, Hs. tauto. }
        { apply NoDup_app. split; [done|]. split; [|apply NoDup_singleton].
          intros x Hx Hx'. apply list_elem_of_singleton in Hx'. by subst x. }
        exists (n :: more). rewrite <- app_assoc in Hm, Hnd', Hseen.
        split; [done|]. split; [done|]. split; [|done].
        intros x. split.
        -- intros Hx. apply elem_of_cons in Hx as [->|Hx].
           ++ split; [done|]. exists a. split; [by left|done].
           ++ apply Hmore in Hx as [Hx (a' & ? & ?)]. split.
              ** intros ?. apply Hx, elem_of_app. by left.
              ** exists a'. split; [by right|done].
        -- intros [Hx (a' & Ha' & Hn')].
           destruct (decide (x = n)) as [->|Hne]; [by left|]. right.
           apply Hmore. split.
           ++ intros Hx'. apply elem_of_app in Hx' as [?|Hx']; [done|].
              by apply list_elem_of_singleton in Hx'.
           ++ apply elem_of_cons in Ha' as [->|Ha']; [congruence|eauto].
    + apply Hskip; [done..|]. by intros ? [=].
Qed.

Lemma merge_start_in_step n : n ∈ (∅ : gset string) ↔ n ∈ ([] : list string).
Proof. split; intros Hn; [by apply elem_of_empty in Hn|by apply elem_of_nil in Hn]. Qed.

Lemma merge_names_elems l :
  NoDup (merge_names l)
  ∧ (∀ n, n ∈ merge_names l ↔ ∃ a, a ∈ l ∧ normalize_str (VStr a) = Some n).
Proof.
  unfold merge_names.
  destruct (fold_merge_step l ∅ [] merge_start_in_step NoDup_nil_2)
    as (more & -> & Hnd & Hmore & _).
  simpl in *. split; [done|]. intros n. rewrite Hmore. split.
  - by intros [_ ?].
  - intros ?. split; [|done]. intros Hn. by apply elem_of_nil in Hn.
Qed.

(** X7: the merged list of names has no name twice, and holds exactly the
    normalized names of the list it is made from. *)
Theorem merge_names_spec l :
  NoDup (merge_names l)
  ∧ (∀ n, n ∈ merge_names l ↔ ∃ a, a ∈ l ∧ normalize_str (VStr a) = Some n).
Proof. exact (merge_names_elems l). Qed.

Lemma merge_names_app l1 l2 :
  merge_names l1 `prefix_of` merge_names (l1 ++ l2).
Proof.
  unfold merge_names. rewrite fold_left_app.
  destruct (fold_merge_step l1 ∅ [] merge_start_in_step NoDup_nil_2)
    as (m1 & E1 & Hnd1 & _ & Hs1).
  destruct (fold_left merge_step l1 (∅, [])) as [seen1 merged1].
  simpl in E1, Hs1, Hnd1. subst merged1. simpl.
  destruct (fold_merge_step l2 seen1 m1 Hs1 Hnd1) as (m2 & -> & _ & _).
  by exists m2.
Qed.

(** X8: the names of the first list come first: merging more names after
    them only appends. *)
Theorem merge_names_prefix l1 l2 :
  merge_names l1 `prefix_of` merge_names (l1 ++ l2).
Proof. exact (merge_names_app l1 l2). Qed.

End MergeNames.

(** ** Survivorship and the fields derived from it *)

Lemma hex_digit_hex z : 0 ≤ z < 16 → is_hex (Sha1.hex_digit z) = true.
Proof.
  intros Hz.
  assert (z = 0 ∨ z = 1 ∨ z = 2 ∨ z = 3 ∨ z = 4 ∨ z = 5 ∨ z = 6 ∨ z = 7 ∨ z = 8
          ∨ z = 9 ∨ z = 10 ∨ z = 11 ∨ z = 12 ∨ z = 13 ∨ z = 14 ∨ z = 15) as Hc by lia.
  repeat (destruct Hc as [->|Hc]; [reflexivity|]). by subst z.
Qed.

Lemma hex_word_shape x :
  length (Sha1.hex_word x) = 8%nat ∧ forallb is_hex (Sha1.hex_word x) = true.
Proof.
  unfold Sha1.hex_word. split; [by rewrite length_map|].
  apply forallb_forall. intros c Hc. apply in_map_iff in Hc as (i & <- & _).
  apply hex_digit_hex. apply Z.mod_pos_bound. lia.
Qed.

Lemma length_of_chars l : String.length (Str.of_chars l) = length l.
Proof. induction l as [|c l IH]; simpl; [done|]. by rewrite IH. Qed.

(** A SHA-1 digest is a text of 40 hexadecimal digits, in lower case. *)
Lemma hexdigest_hex s :
  String.length (Sha1.hexdigest s) = 40%nat
  ∧ forallb is_hex (Str.chars (Sha1.hexdigest s)) = true.
Proof.
  unfold Sha1.hexdigest.
  destruct (Sha1.digest _) as [[[[h0 h1] h2] h3] h4].
  rewrite length_of_chars, chars_of_chars, !length_app, !forallb_app.
  destruct (hex_word_shape h0) as [-> ->], (hex_word_shape h1) as [-> ->],
    (hex_word_shape h2) as [-> ->], (hex_word_shape h3) as [-> ->],
    (hex_word_shape h4) as [-> ->].
  done.
Qed.

Lemma digit_val_bounds c :
  Str.is_digit c = true → (0 <=? Str.digit_val c) && (Str.digit_val c <=? 9) = true.
Proof. ascii_cases c. Qed.

Lemma digits4_bounds l y rest :
  Pat.digits4 l = Some (y, rest) → 0 ≤ Str.int_of_digits y ≤ 9999.
Proof.
  unfold Pat.digits4. destruct l as [|a [|b [|c [|d r]]]]; try done.
  destruct (forallb _ _) eqn:E; [|done]. intros [= <- _].
  simpl in E. rewrite !andb_true_iff in E. destruct E as (Ha & Hb & Hc & Hd & _).
  apply digit_val_bounds in Ha, Hb, Hc, Hd.
  rewrite andb_true_iff, !Z.leb_le in Ha, Hb, Hc, Hd.
  unfold Str.int_of_digits. simpl. lia.
Qed.

Section MergeFields.
Context `{PyHost}.

Lemma merge_first_author g gg :
  first_author (merge_records g gg)
  = head (merge_names (normalize_author (get g "authors")
                       ++ (if truthy_dict gg then normalize_author (get gg "authors")
                           else []))).
Proof. reflexivity. Qed.

Lemma merge_authors g gg :
  authors (merge_records g gg)
  = joined (merge_names (normalize_author (get g "authors")
                         ++ (if truthy_dict gg then normalize_author (get gg "authors")
                             else []))).
Proof. reflexivity. Qed.

Lemma merge_title g gg :
  title (merge_records g gg)
  = choose_survivor id (normalize_str (get g "title"))
      (if truthy_dict gg then normalize_str (get gg "title") else None) "goodreads".
Proof. reflexivity. Qed.

Lemma merge_publisher g gg :
  publisher (merge_records g gg)
  = choose_survivor id (normalize_str (get g "publisher"))
      (normalize_str (if truthy_dict gg then get gg "publisher" else VNone))
      "goodreads".
Proof. reflexivity. Qed.

Lemma merge_pub_year g gg :
  pub_year (merge_records g gg) = year_of (pub_date (merge_records g gg)).
Proof. reflexivity. Qed.

Lemma guarded_normalize_str gg k :
  (if truthy_dict gg then normalize_str (get gg k) else None)
  = normalize_str (get gg k).
Proof.
  destruct (truthy_dict gg) eqn:E; [done|].
  apply truthy_dict_false in E as ->. by rewrite get_empty.
Qed.

Lemma guarded_iso_date gg k :
  (if truthy_dict gg then iso_date (get gg k) else None) = iso_date (get gg k).
Proof.
  destruct (truthy_dict gg) eqn:E; [done|].
  apply truthy_dict_false in E as ->. by rewrite get_empty.
Qed.

Lemma guarded_normalize_author gg k :
  (if truthy_dict gg then normalize_author (get gg k) else [])
  = normalize_author (get gg k).
Proof.
  destruct (truthy_dict gg) eqn:E; [done|].
  apply truthy_dict_false in E as ->. by rewrite get_empty.
Qed.

(** X9: survivorship.  The title, the publisher and the date of a merged
    row are the Goodreads value whenever there is one, and the Google value
    otherwise; the comparison of the two texts in [choose_survivor] never
    changes the outcome. *)
Theorem primary_value_survives g gg :
  title (merge_records g gg)
    = match normalize_str (get g "title") with
      | Some t => Some t
      | None => normalize_str (get gg "title")
      end
  ∧ publisher (merge_records g gg)
    = match normalize_str (get g "publisher") with
      | Some p => Some p
      | None => normalize_str (get gg "publisher")
      end
  ∧ pub_date (merge_records g gg)
    = match iso_date (get g "pub_date") with
      | Some d => Some d
      | None => iso_date (get gg "pub_date")
      end.
Proof.
  rewrite merge_title, merge_publisher, merge_pub_date, !choose_survivor_goodreads,
    get_guarded, guarded_normalize_str, guarded_iso_date.
  split; [|split].
  - by destruct (normalize_str (get g "title")).
  - by destruct (normalize_str (get g "publisher")).
  - by destruct (iso_date (get g "pub_date")).
Qed.

(** X10: the year of a merged row lies between 0 and 9999, and a row with a
    year has a date. *)
Theorem pub_year_bounds g gg y :
  pub_year (merge_records g gg) = Some y →
  0 ≤ y ≤ 9999 ∧ pub_date (merge_records g gg) ≠ None.
Proof.
  rewrite merge_pub_year. unfold year_of, Pat.y.
  destruct (pub_date (merge_records g gg)) as [d|]; [|done]. simpl.
  destruct (negb _); [|done].
  destruct (Pat.digits4 (Str.chars d)) as [[ys rest]|] eqn:E; [|done]. simpl.
  rewrite chars_of_chars. intros [= <-]. split; [|done].
  by eapply digits4_bounds.
Qed.

Lemma merge_names_head a l :
  normalize_str (VStr a) = Some a → head (merge_names (a :: l)) = Some a.
Proof.
  intros Ha.
  destruct (merge_names_app [a] l) as [k Hk].
  change ([a] ++ l) with (a :: l) in Hk. rewrite Hk.
  unfold merge_names. cbn [fold_left].
  rewrite merge_step_spec by apply merge_start_in_step.
  rewrite Ha. by rewrite decide_False by (intros Hn; by apply elem_of_nil in Hn).
Qed.

(** X11: the first author of a merged row is the first author of the
    Goodreads record whenever that has an author; it is then also the
    author that the title and author key is built with. *)
Theorem first_author_primary g gg a rest :
  normalize_author (get g "authors") = a :: rest →
  first_author (merge_records g gg) = Some a
  ∧ get_first_author (get g "authors") = a.
Proof.
  intros E. split.
  - rewrite merge_first_author, E. simpl. apply merge_names_head.
    apply (normalize_author_elem (get g "authors")). rewrite E. by left.
  - unfold get_first_author. by rewrite E.
Qed.

Lemma merge_names_nil l :
  (∀ a, a ∈ l → normalize_str (VStr a) = Some a) → merge_names l = [] → l = [].
Proof.
  intros Hl E. destruct l as [|a l]; [done|].
  assert (a ∈ merge_names (a :: l)) as Ha.
  { apply merge_names_elems. exists a. split; [by left|]. apply Hl. by left. }
  rewrite E in Ha. by apply elem_of_nil in Ha.
Qed.

(** X12: a merged row has no authors exactly when neither record has one,
    and then it has no first author either. *)
Theorem authors_absent g gg :
  (authors (merge_records g gg) = None
   ↔ normalize_author (get g "authors") = [] ∧ normalize_author (get gg "authors") = [])
  ∧ (authors (merge_records g gg) = None ↔ first_author (merge_records g gg) = None).
Proof.
  rewrite merge_authors, merge_first_author, guarded_normalize_author.
  set (l := normalize_author (get g "authors") ++ normalize_author (get gg "authors")).
  assert (∀ a, a ∈ l → normalize_str (VStr a) = Some a) as Hl.
  { intros a Ha. unfold l in Ha. apply elem_of_app in Ha as [Ha|Ha];
      by apply normalize_author_elem in Ha as [_ ?]. }
  assert (joined (merge_names l) = None ↔ merge_names l = []) as Hj.
  { unfold joined. by destruct (merge_names l). }
  assert (head (merge_names l) = None ↔ merge_names l = []) as Hh.
  { by destruct (merge_names l). }
  split.
  - rewrite Hj. split.
    + intros E. apply merge_names_nil in E; [|done]. by apply app_eq_nil in E.
    + intros [E1 E2]. unfold l. by rewrite E1, E2.
  - by rewrite Hj, Hh.
Qed.

End MergeFields.

(** ** The matcher *)

Lemma truthy_str_some s : truthy_str (Some s) = true ↔ s ≠ "".
Proof. simpl. destruct (String.eqb_spec s ""); split; done. Qed.

Lemma append_nonempty s t : s ≠ "" → s +:+ t ≠ "".
Proof. by destruct s. Qed.

Section Matcher.
Context `{PyHost}.

Lemma key_title_author_truthy g :
  truthy_str (key_title_author g) = some (key_title_author g).
Proof.
  unfold key_title_author.
  destruct (truthy_str (normalize_title (get g "title"))) eqn:Et; [|done].
  destruct (truthy_str (Some (get_first_author (get g "authors")))); [|done].
  cbn [andb some].
  destruct (normalize_title (get g "title")) as [t|]; [|done].
  apply truthy_str_some in Et. apply truthy_str_some.
  by apply append_nonempty.
Qed.

(** A record filed under a key is not the empty dictionary. *)
Lemma keyed_truthy r :
  (is_Some (key_gbid r) ∨ is_Some (key_isbn13 r) ∨ is_Some (key_title_author r)) →
  truthy_dict r = true.
Proof.
  intros Hk. destruct (truthy_dict r) eqn:E; [done|].
  apply truthy_dict_false in E as ->.
  unfold key_gbid, key_isbn13, key_title_author in Hk.
  rewrite !get_empty in Hk. cbn in Hk.
  destruct Hk as [[? [=]]|[[? [=]]|[? [=]]]].
Qed.

(** What the three tables hold comes from the list they were built from. *)
Lemma by_gbid_elem recs k r :
  google_by_gbid (build_indexes recs) !! k = Some r →
  r ∈ recs ∧ key_gbid r = Some k.
Proof.
  unfold build_indexes. rewrite fold_index_by_gbid. cbn. rewrite lookup_empty.
  destruct (last _) as [r'|] eqn:E; [|done]. intros [= ->].
  apply last_Some_elem_of, list_elem_of_filter in E as [? ?]. done.
Qed.

Lemma by_isbn13_elem recs k r :
  google_by_isbn13 (build_indexes recs) !! k = Some r →
  r ∈ recs ∧ key_isbn13 r = Some k.
Proof.
  unfold build_indexes. rewrite fold_index_by_isbn13. cbn. rewrite lookup_empty.
  destruct (last _) as [r'|] eqn:E; [|done]. intros [= ->].
  apply last_Some_elem_of, list_elem_of_filter in E as [? ?]. done.
Qed.

Lemma by_key_elem recs k r :
  google_by_key (build_indexes recs) !! k = Some r →
  r ∈ recs ∧ key_title_author r = Some k.
Proof.
  unfold build_indexes. rewrite fold_index_by_key. cbn. rewrite lookup_empty.
  intros E. apply head_Some_elem_of, list_elem_of_filter in E as [? ?]. done.
Qed.

(** A table has an entry for every key under which a record is filed. *)
Lemma by_gbid_filed recs k r :
  r ∈ recs → key_gbid r = Some k →
  is_Some (google_by_gbid (build_indexes recs) !! k).
Proof.
  intros Hr Hk. unfold build_indexes. rewrite fold_index_by_gbid.
  destruct (last _) as [r'|] eqn:E; [by eexists|].
  apply last_None in E. exfalso.
  assert (r ∈ filed_under key_gbid k recs) as Hin by (by apply list_elem_of_filter).
  rewrite E in Hin. by apply elem_of_nil in Hin.
Qed.

Lemma by_isbn13_filed recs k r :
  r ∈ recs → key_isbn13 r = Some k →
  is_Some (google_by_isbn13 (build_indexes recs) !! k).
Proof.
  intros Hr Hk. unfold build_indexes. rewrite fold_index_by_isbn13.
  destruct (last _) as [r'|] eqn:E; [by eexists|].
  apply last_None in E. exfalso.
  assert (r ∈ filed_under key_isbn13 k recs) as Hin by (by apply list_elem_of_filter).
  rewrite E in Hin. by apply elem_of_nil in Hin.
Qed.

Lemma by_key_filed recs k r :
  r ∈ recs → key_title_author r = Some k →
  is_Some (google_by_key (build_indexes recs) !! k).
Proof.
  intros Hr Hk. unfold build_indexes. rewrite fold_index_by_key. cbn.
  rewrite lookup_empty.
  destruct (head _) as [r'|] eqn:E; [by eexists|].
  apply head_None in E. exfalso.
  assert (r ∈ filed_under key_title_author k recs) as Hin
    by (by apply list_elem_of_filter).
  rewrite E in Hin. by apply elem_of_nil in Hin.
Qed.

Lemma lookup_id_spec recs g r :
  lookup_id (build_indexes recs) g = Some r →
  r ∈ recs ∧ gid_of g ≠ "" ∧ key_gbid r = Some (gid_of g).
Proof.
  unfold lookup_id. destruct (truthy_str (Some (gid_of g))) eqn:E; [|done].
  apply truthy_str_some in E. intros [? ?]%by_gbid_elem. done.
Qed.

Lemma lookup_isbn_spec recs g r :
  lookup_isbn (build_indexes recs) g = Some r →
  r ∈ recs ∧ ∃ i, normalize_str (py_or (get g "isbn13") (get g "isbn")) = Some i
                  ∧ key_isbn13 r = Some i.
Proof.
  unfold lookup_isbn.
  destruct (normalize_str (py_or (get g "isbn13") (get g "isbn"))) as [i|]; [|done].
  destruct (truthy_str (Some i)); [|done]. simpl.
  intros [? ?]%by_isbn13_elem. eauto.
Qed.

Lemma lookup_key_spec recs g r :
  lookup_key (build_indexes recs) g = Some r →
  r ∈ recs ∧ ∃ k, key_title_author g = Some k ∧ key_title_author r = Some k.
Proof.
  unfold lookup_key.
  destruct (key_title_author g) as [k|]; [|done].
  destruct (truthy_str (Some k)); [|done]. simpl.
  intros [? ?]%by_key_elem. eauto.
Qed.

Lemma match_record_found recs g r m :
  match_record (build_indexes recs) g = (Some r, m) →
  r ∈ recs ∧ truthy_dict r = true
  ∧ ((m = "id" ∧ gid_of g ≠ "" ∧ key_gbid r = Some (gid_of g))
     ∨ (m = "isbn"
        ∧ ∃ i, normalize_str (py_or (get g "isbn13") (get g "isbn")) = Some i
               ∧ key_isbn13 r = Some i)
     ∨ (m = "heuristic"
        ∧ ∃ k, key_title_author g = Some k ∧ key_title_author r = Some k)).
Proof.
  unfold match_record.
  destruct (lookup_id _ g) as [r1|] eqn:E1.
  { intros [= -> <-]. apply lookup_id_spec in E1 as (? & ? & Hk).
    split; [done|]. split; [|by left].
    apply keyed_truthy. left. by rewrite Hk. }
  destruct (lookup_isbn _ g) as [r2|] eqn:E2.
  { intros [= -> <-]. apply lookup_isbn_spec in E2 as (? & i & ? & Hk).
    split; [done|]. split; [|right; left; eauto].
    apply keyed_truthy. right. left. by rewrite Hk. }
  destruct (lookup_key _ g) as [r3|] eqn:E3; [|done].
  intros [= -> <-]. apply lookup_key_spec in E3 as (? & k & ? & Hk).
  split; [done|]. split; [|right; right; eauto].
  apply keyed_truthy. right. right. by rewrite Hk.
Qed.

(** X13: the matcher is sound.  A matched record is one of the Google
    records, it is not the empty dictionary, and it shares with the
    Goodreads record the key of the method reported. *)
Theorem match_record_sound recs g r m :
  match_record (build_indexes recs) g = (Some r, m) →
  r ∈ recs ∧ truthy_dict r = true
  ∧ ((m = "id" ∧ gid_of g ≠ "" ∧ key_gbid r = Some (gid_of g))
     ∨ (m = "isbn"
        ∧ ∃ i, normalize_str (py_or (get g "isbn13") (get g "isbn")) = Some i
               ∧ key_isbn13 r = Some i)
     ∨ (m = "heuristic"
        ∧ ∃ k, key_title_author g = Some k ∧ key_title_author r = Some k)).
Proof. exact (match_record_found recs g r m). Qed.

(** X14: the matcher is complete.  A Goodreads record stays unmatched
    exactly when no Google record shares a key with it. *)
Theorem match_record_none recs g :
  (match_record (build_indexes recs) g).1 = None
  ↔ ∀ r, r ∈ recs → ¬ shares_key g r.
Proof.
  split.
  - intros Hm r Hr Hs. unfold match_record in Hm.
    destruct (lookup_id _ g) eqn:E1; [done|].
    destruct (lookup_isbn _ g) eqn:E2; [done|].
    destruct (lookup_key _ g) eqn:E3; [done|].
    destruct Hs as [[Hg Hk]|[(i & Hi & Hk)|(k & Hg & Hk)]].
    + unfold lookup_id in E1. apply truthy_str_some in Hg. rewrite Hg in E1.
      destruct (by_gbid_filed recs _ r Hr Hk) as [? E]. congruence.
    + unfold lookup_isbn in E2. rewrite truthy_normalize_str, Hi in E2. simpl in E2.
      destruct (by_isbn13_filed recs _ r Hr Hk) as [? E]. congruence.
    + unfold lookup_key in E3. rewrite key_title_author_truthy, Hg in E3.
      simpl in E3.
      destruct (by_key_filed recs _ r Hr Hk) as [? E]. congruence.
  - intros Hn. unfold match_record.
    destruct (lookup_id _ g) as [r|] eqn:E1.
    { apply lookup_id_spec in E1 as (Hr & ? & ?). destruct (Hn r Hr). by left. }
    destruct (lookup_isbn _ g) as [r|] eqn:E2.
    { apply lookup_isbn_spec in E2 as (Hr & ?). destruct (Hn r Hr). right. by left. }
    destruct (lookup_key _ g) as [r|] eqn:E3; [|done].
    apply lookup_key_spec in E3 as (Hr & ?). destruct (Hn r Hr). right. by right.
Qed.

(** X15: in the ledger, [from_google] is set exactly when the method is not
    [none], and the method is one of the four. *)
Theorem ledger_method ts recs g :
  let d := (process ts (build_indexes recs) g).2 in
  (from_google d = true ↔ merge_method d ≠ "none")
  ∧ (merge_method d = "id" ∨ merge_method d = "isbn"
     ∨ merge_method d = "heuristic" ∨ merge_method d = "none").
Proof.
  unfold process.
  destruct (match_record (build_indexes recs) g) as [matched m] eqn:E. simpl.
  destruct matched as [r|].
  - apply match_record_found in E as (_ & Ht & Hm). simpl. rewrite Ht.
    destruct Hm as [(-> & _)|[(-> & _)|(-> & _)]]; split; auto; by split.
  - assert (m = "none") as ->.
    { unfold match_record in E.
      destruct (lookup_id _ g); [done|]. destruct (lookup_isbn _ g); [done|].
      destruct (lookup_key _ g); [done|]. by injection E. }
    simpl. split; [by split|auto].
Qed.

End Matcher.

(** ** The identifier of a row and its ledger entry *)

Section Rows.
Context `{PyHost}.

(** The digest that identifies a row without ISBN is a text of 40
    hexadecimal digits. *)
Lemma stable_hash_id_shape fields :
  String.length (stable_hash_id fields) = 40%nat
  ∧ forallb is_hex (Str.chars (stable_hash_id fields)) = true.
Proof. unfold stable_hash_id. apply hexdigest_hex. Qed.

Lemma canonical_id_cases g gg :
  let b := merge_records g gg in
  canonical_id b ≠ ""
  ∧ (isbn13 b = Some (canonical_id b)
     ∨ (isbn13 b = None ∧ String.length (canonical_id b) = 40%nat
        ∧ forallb is_hex (Str.chars (canonical_id b)) = true)).
Proof.
  intros b. unfold b at 1 3 5 6. rewrite merge_canonical_id. fold b.
  assert (truthy_str (isbn13 b) = some (isbn13 b)) as Ht.
  { unfold b. rewrite merge_isbn13, or_str_normalize.
    destruct (normalize_str (get g "isbn13")) as [i|] eqn:E.
    - apply normalize_str_nonempty in E. simpl.
      by destruct (String.eqb_spec i "").
    - apply truthy_normalize_str. }
  rewrite Ht. destruct (isbn13 b) as [i|] eqn:Ei; cbn [some default].
  - split; [|by left]. apply truthy_str_some. exact Ht.
  - destruct (stable_hash_id_shape
                [or_str (title_normalized b) (Some "");
                 or_str (first_author b) (Some "");
                 or_str (publisher b) (Some ""); Some (year_text (pub_year b))])
      as [Hl Hh].
    split; [|right; done].
    intros E. rewrite E in Hl. done.
Qed.

(** X16: the identifier of a merged row is never empty: it is a normalized
    ISBN-13 or a digest of 40 hexadecimal digits. *)
Theorem canonical_id_shape g gg :
  let b := merge_records g gg in
  canonical_id b ≠ ""
  ∧ (isbn13 b = Some (canonical_id b)
     ∨ (isbn13 b = None ∧ String.length (canonical_id b) = 40%nat
        ∧ forallb is_hex (Str.chars (canonical_id b)) = true)).
Proof. exact (canonical_id_cases g gg). Qed.

Lemma process_row ts ix g :
  (process ts ix g).1 = merge_records g (or_empty (match_record ix g).1).
Proof. unfold process. by destruct (match_record ix g). Qed.

Lemma process_detail ts ix g :
  (process ts ix g).2
  = {| detail_canonical_id := canonical_id (process ts ix g).1;
       gb_id := gid_of g;
       from_google := truthy_match (match_record ix g).1;
       merge_method := (match_record ix g).2;
       timestamp := ts |}.
Proof. unfold process. by destruct (match_record ix g). Qed.

(** X17: a row merged by ISBN has an ISBN-13, and that is its identifier:
    such a row is never identified by a digest. *)
Theorem isbn_match_identity ts recs g :
  merge_method (process ts (build_indexes recs) g).2 = "isbn" →
  isbn13 (process ts (build_indexes recs) g).1
  = Some (canonical_id (process ts (build_indexes recs) g).1).
Proof.
  rewrite process_detail, process_row. simpl.
  destruct (match_record (build_indexes recs) g) as [matched m] eqn:E. simpl.
  intros ->. destruct matched as [r|].
  2:{ unfold match_record in E.
      destruct (lookup_id _ g); [done|]. destruct (lookup_isbn _ g); [done|].
      by destruct (lookup_key _ g). }
  apply match_record_found in E as (_ & Ht & Hm). simpl. rewrite Ht.
  destruct Hm as [([=] & _)|[(_ & i & _ & Hk)|([=] & _)]].
  destruct (canonical_id_cases g r) as [_ [Hi|[Hi _]]]; [done|].
  rewrite merge_isbn13, or_str_normalize in Hi.
  unfold key_isbn13 in Hk. rewrite truthy_normalize_str in Hk.
  destruct (normalize_str (get g "isbn13")); [done|].
  destruct (normalize_str (get r "isbn13")); done.
Qed.

(** X18: a Google record that carries only its identifiers adds nothing to
    the merged row, yet the ledger counts it as a match by identifier. *)
Theorem identifiers_only_match ts ix g r :
  lookup_id ix g = Some r → truthy_dict r = true → only_identifiers r →
  from_google (process ts ix g).2 = true
  ∧ merge_method (process ts ix g).2 = "id"
  ∧ canonical_id (process ts ix g).1 = canonical_id (merge_records g ∅)
  ∧ (source_preference (merge_records g ∅) = "goodreads" →
     (process ts ix g).1 = merge_records g ∅).
Proof.
  intros Hl Ht Ho. rewrite process_detail, process_row. simpl.
  unfold match_record. rewrite Hl. simpl. rewrite Ht.
  split; [done|]. split; [done|].
  assert (∀ k, k ≠ "gb_id" → k ≠ "google_id" → get r k = get ∅ k) as Hg.
  { intros k ? ?. rewrite get_empty. by apply Ho. }
  unfold merge_records. rewrite Ht, truthy_dict_empty.
  rewrite !Ho by done. cbn [canonical_id source_preference].
  split; [done|].
  change (normalize_str VNone) with (@None string).
  change (normalize_author VNone) with (@nil string).
  change (iso_date VNone) with (@None string).
  intros Hp.
  destruct (_ <=? _)%nat eqn:E; [done|]. done.
Qed.

End Rows.

(** ** The ledger, the canonical frame and the metrics *)

(** *** Facts *)

Lemma fold_value_counts (l : list string) (m : gmap string nat) (v : string) :
  default 0%nat (fold_left count_value l m !! v)
  = (default 0%nat (m !! v) + length (filter (λ x, x = v) l))%nat.
Proof.
  revert m. induction l as [|x l IH]; intros m; simpl; [lia|].
  rewrite IH, filter_cons. unfold count_value.
  destruct (decide (x = v)) as [->|Hne].
  - rewrite lookup_insert_eq. simpl. lia.
  - by rewrite lookup_insert_ne.
Qed.

Lemma value_counts_lookup (l : list string) (v : string) :
  default 0%nat (value_counts l !! v) = length (filter (λ x, x = v) l).
Proof. unfold value_counts. rewrite fold_value_counts, lookup_empty. done. Qed.

Lemma to_records_length rows :
  (length (to_records rows) ≤ length rows)%nat
  ∧ (frame_empty rows = false → length (to_records rows) = length rows).
Proof.
  unfold to_records. destruct (frame_empty rows); simpl.
  - split; [lia|done].
  - rewrite length_map. split; [lia|done].
Qed.

(** Without sortedness: every identifier that is not yet seen keeps a row. *)
Lemma drop_duplicates_from_covers seen rows r :
  r ∈ rows → canonical_id r ∉ seen →
  ∃ r', r' ∈ drop_duplicates_from seen rows ∧ canonical_id r' = canonical_id r.
Proof.
  revert seen. induction rows as [|x rows IH]; intros seen Hr Hn.
  - by apply elem_of_nil in Hr.
  - simpl. case_bool_decide as Hin.
    + apply elem_of_cons in Hr as [->|Hr]; [done|]. by apply IH.
    + destruct (decide (canonical_id r = canonical_id x)) as [Heq|Hne].
      * exists x. split; [by left|done].
      * apply elem_of_cons in Hr as [->|Hr]; [done|].
        destruct (IH ({[canonical_id x]} ∪ seen) Hr) as (r' & ? & ?).
        { intros Hc. apply elem_of_union in Hc as [Hc|Hc]; [|done].
          by apply elem_of_singleton in Hc. }
        exists r'. split; [by right|done].
Qed.

Section Run.
Context `{PyHost}.
Hypothesis Hsort : sorts_descending H.

Lemma deduplicate_ids rows i :
  i ∈ map canonical_id (deduplicate rows) ↔ i ∈ map canonical_id rows.
Proof.
  unfold deduplicate. destruct rows as [|x rows]; [done|].
  destruct (Hsort book score (x :: rows)) as [Hperm _].
  set (l := x :: rows) in *. split.
  - intros Hi. apply list_elem_of_fmap in Hi as (r & -> & Hr).
    apply drop_duplicates_from_fresh in Hr as [_ Hr]. rewrite Hperm in Hr.
    by apply list_elem_of_fmap_2.
  - intros Hi. apply list_elem_of_fmap in Hi as (r & -> & Hr).
    rewrite <- Hperm in Hr.
    destruct (drop_duplicates_from_covers ∅ _ r Hr) as (r' & Hr' & <-).
    { intros Hc. by apply elem_of_empty in Hc. }
    by apply list_elem_of_fmap_2.
Qed.

Lemma deduplicate_length rows : (length (deduplicate rows) ≤ length rows)%nat.
Proof.
  unfold deduplicate. destruct rows as [|x rows]; [done|].
  destruct (Hsort book score (x :: rows)) as [Hperm _].
  rewrite <- (Permutation_length Hperm).
  apply sublist_length, drop_duplicates_from_sublist.
Qed.

(** X19: the ledger and the canonical frame.  The ledger has one row for
    every Goodreads record, in the order of the input and under its
    identifier; the canonical frame holds exactly the identifiers of the
    ledger, each once, so that its length is the number of distinct
    identifiers. *)
Theorem ledger_and_rows ts df_good df_gg :
  let rows := (run_pipeline ts df_good df_gg).1 in
  let details := (run_pipeline ts df_good df_gg).2 in
  map gb_id details = map gid_of (to_records df_good)
  ∧ (∀ i, i ∈ map canonical_id rows ↔ i ∈ map detail_canonical_id details)
  ∧ length rows
    = size (list_to_set (map detail_canonical_id details) : gset string).
Proof.
  intros rows details. unfold rows, details, run_pipeline. cbn [fst snd].
  set (ix := build_indexes (to_records df_gg)).
  set (recs := to_records df_good).
  assert (map detail_canonical_id (map snd (map (process ts ix) recs))
          = map canonical_id (map fst (map (process ts ix) recs))) as Eids.
  { rewrite !map_map. apply map_ext. intros g. by rewrite process_detail. }
  split; [|split].
  - rewrite !map_map. apply map_ext. intros g. by rewrite process_detail.
  - intros i. rewrite Eids. apply deduplicate_ids.
  - rewrite Eids.
    set (merged := map fst (map (process ts ix) recs)).
    transitivity
      (size (list_to_set (map canonical_id (deduplicate merged)) : gset string)).
    + rewrite size_list_to_set by apply deduplicate_NoDup. by rewrite length_map.
    + f_equal. apply set_eq. intros i. rewrite !elem_of_list_to_set.
      apply deduplicate_ids.
Qed.

(** X20: the counts of the metrics add up.  The duplicates removed are not
    negative and, added to the rows written, give the Goodreads records
    merged; this is the number of rows read unless the Goodreads frame has
    rows but no column, in which case nothing is merged.  The matched
    records are at most the rows read, and the two preference counts add up
    to the rows written. *)
Theorem metrics_add_up ts df_good df_gg :
  let m := run_metrics ts df_good df_gg in
  0 ≤ duplicates_removed m
  ∧ Z.of_nat (rows_output m) + duplicates_removed m
    = Z.of_nat (length (to_records df_good))
  ∧ (frame_empty df_good = false →
     Z.of_nat (rows_output m) + duplicates_removed m
     = Z.of_nat (rows_input_goodreads m))
  ∧ (frame_empty df_good = true →
     rows_output m = 0%nat ∧ duplicates_removed m = 0 ∧ matched_with_google m = 0%nat)
  ∧ (matched_with_google m ≤ rows_input_goodreads m)%nat
  ∧ (default 0 (source_preference_counts m !! "goodreads")
     + default 0 (source_preference_counts m !! "google"))%nat
    = rows_output m.
Proof.
  intros m. unfold m, run_metrics. cbn [duplicates_removed rows_output
    rows_input_goodreads matched_with_google source_preference_counts].
  set (ix := build_indexes (to_records df_gg)).
  set (recs := to_records df_good).
  set (merged := map fst (map (process ts ix) recs)).
  assert (length merged = length recs) as Hlen.
  { unfold merged. by rewrite !length_map. }
  pose proof (deduplicate_length merged) as Hle.
  destruct (to_records_length df_good) as [Hin Hfull]. fold recs in Hin, Hfull.
  split; [lia|]. split; [lia|]. split; [intros E; rewrite <- (Hfull E); lia|].
  split; [|split].
  - intros E. assert (recs = []) as Hr by (unfold recs, to_records; by rewrite E).
    clear Hlen Hle Hin Hfull. subst merged. by rewrite Hr.
  - etransitivity; [apply length_filter|]. rewrite !length_map. lia.
  - rewrite !value_counts_lookup.
    assert (Forall (λ b, source_preference b = "goodreads"
                         ∨ source_preference b = "google") (deduplicate merged))
      as Hpref.
    { apply Forall_forall. intros b Hb.
      assert (b ∈ merged) as Hm.
      { unfold deduplicate in Hb. destruct merged as [|x l]; [done|].
        apply drop_duplicates_from_fresh in Hb as [_ Hb].
        destruct (Hsort book score (x :: l)) as [Hperm _]. by rewrite Hperm in Hb. }
      unfold merged in Hm. rewrite map_map in Hm.
      apply list_elem_of_fmap in Hm as (g & -> & _). rewrite process_row.
      unfold merge_records. cbn [source_preference].
      destruct (_ <=? _)%nat; auto. }
    induction Hpref as [|b l [E|E] _ IH]; [done|..];
      cbn [map]; rewrite !filter_cons, E; simpl in *; lia.
Qed.

End Run.

(** ** Dates, currencies and the empty Google frame *)

Lemma upper_not_lower c : Str.is_lower (Str.upper_char c) = false.
Proof. ascii_cases c. Qed.

(** Two digits at most, padded to two. *)
Lemma zero_pad_2_length n : 0 ≤ n ≤ 99 → String.length (Str.zero_pad 2 n) = 2%nat.
Proof.
  intros Hn.
  assert (forallb (λ k, (String.length (Str.zero_pad 2 (Z.of_nat k)) =? 2)%nat)
            (seq 0 100) = true) as Hall by (vm_compute; reflexivity).
  rewrite forallb_forall in Hall.
  specialize (Hall (Z.to_nat n)). rewrite Z2Nat.id in Hall by lia.
  apply Nat.eqb_eq, Hall, in_seq. lia.
Qed.

Lemma digits_le_99 l :
  (length l ≤ 2)%nat → forallb Str.is_digit l = true → 0 ≤ Str.int_of_digits l ≤ 99.
Proof.
  intros Hl Hd. destruct l as [|a [|b [|c l]]]; simpl in Hl; try lia.
  - vm_compute. split; discriminate.
  - simpl in Hd. rewrite andb_true_r in Hd.
    apply digit_val_bounds in Hd. rewrite andb_true_iff, !Z.leb_le in Hd.
    unfold Str.int_of_digits. simpl. lia.
  - simpl in Hd. rewrite andb_true_r in Hd. apply andb_true_iff in Hd as [Ha Hb].
    apply digit_val_bounds in Ha, Hb. rewrite andb_true_iff, !Z.leb_le in Ha, Hb.
    unfold Str.int_of_digits. simpl. lia.
Qed.

Lemma dash_digits_last_short l d :
  Pat.dash_digits_last l = Some d → (length d ≤ 2)%nat.
Proof.
  unfold Pat.dash_digits_last. destruct l as [|c [|a rest]]; try done.
  destruct (_ && _); [|done]. destruct rest as [|b rest].
  - intros [= <-]. simpl. lia.
  - destruct (Str.is_digit b); intros [= <-]; simpl; lia.
Qed.

Lemma dash_digits_dash_short l d rest :
  Pat.dash_digits_dash l = Some (d, rest) → (length d ≤ 2)%nat.
Proof.
  unfold Pat.dash_digits_dash. destruct l as [|c [|a l]]; try done.
  destruct (_ && _); [|done]. destruct l as [|b l]; [done|].
  destruct (Pat.is_dash b); [intros [= <- _]; simpl; lia|].
  destruct (Str.is_digit b); [|done]. destruct l as [|c' l]; [done|].
  destruct (Pat.is_dash c'); [|done]. intros [= <- _]. simpl. lia.
Qed.

Lemma digits4_length l y rest :
  Pat.digits4 l = Some (y, rest) → length y = 4%nat ∧ l = y ++ rest.
Proof.
  unfold Pat.digits4. destruct l as [|a [|b [|c [|d r]]]]; try done.
  destruct (forallb _ _); [|done]. by intros [= <- <-].
Qed.

Lemma digits4_app y rest more :
  Pat.digits4 (y ++ rest) = Some (y, rest) → length y = 4%nat →
  Pat.digits4 (y ++ more) = Some (y, more).
Proof.
  intros E Hy. destruct y as [|a [|b [|c [|d [|e y]]]]]; try done.
  clear Hy. unfold Pat.digits4 in *. cbn [app] in *.
  by destruct (forallb Str.is_digit [a; b; c; d]).
Qed.

Lemma length_append s t : String.length (s +:+ t) = (String.length s + String.length t)%nat.
Proof. induction s as [|c s IH]; simpl; [done|]. by rewrite IH. Qed.

Lemma string_length_chars s : String.length s = length (Str.chars s).
Proof. induction s as [|c s IH]; simpl; [done|]. by rewrite IH. Qed.

(** X21: what the fall-back patterns of [iso_date] return has one of the
    three shapes: 4, 7 or 10 characters, and it starts with the four digits
    that the text starts with. *)
Theorem iso_date_patterns_shape s d :
  iso_date_patterns s = Ok (Some d) →
  (String.length d = 4%nat ∨ String.length d = 7%nat ∨ String.length d = 10%nat)
  ∧ Pat.y d = Pat.y s ∧ Pat.y d ≠ None.
Proof.
  unfold iso_date_patterns, Pat.ymd, Pat.ym, Pat.y.
  destruct (Pat.digits4 (Str.chars s)) as [[y r1]|] eqn:Ey; simpl; [|done].
  destruct (digits4_length _ _ _ Ey) as [Hy Es]. rewrite Es in Ey.
  assert (∀ t, Pat.digits4 (Str.chars (Str.of_chars y +:+ t))
               = Some (y, Str.chars t)) as Hstart.
  { intros t. rewrite chars_append, chars_of_chars. by eapply digits4_app. }
  assert (String.length (Str.of_chars y) = 4%nat) as Hly
    by (by rewrite length_of_chars).
  assert (Pat.digits4 (Str.chars (Str.of_chars y)) = Some (y, [])) as Hy0.
  { rewrite chars_of_chars. rewrite <- (app_nil_r y) at 1. by eapply digits4_app. }
  assert (∀ m, Pat.dash_digits_last r1 = Some m →
               ∀ d', (m' ← py_int (Str.of_chars m);
                      Ok (Some (Str.of_chars y +:+ "-" +:+ Str.zero_pad 2 m')))
                     = Ok (Some d') →
               String.length d' = 7%nat
               ∧ (Pat.digits4 (Str.chars d') ≫= λ '(y0, _), Some (Str.of_chars y0))
                 = Some (Str.of_chars y)) as Hym.
  { intros m Hm d'. pose proof (dash_digits_last_short _ _ Hm) as Hs.
    apply dash_digits_last_digits in Hm as [Hne Hd].
    rewrite py_int_digits by done. simpl. intros [= <-].
    rewrite Hstart. split; [|done].
    rewrite !length_append, Hly, zero_pad_2_length by (by apply digits_le_99).
    done. }
  destruct (Pat.dash_digits_dash r1) as [[m r2]|] eqn:Em; simpl.
  - destruct (Pat.dash_digits_last r2) as [dd|] eqn:Ed; simpl.
    + pose proof (dash_digits_dash_short _ _ _ Em) as Hsm.
      pose proof (dash_digits_last_short _ _ Ed) as Hsd.
      apply dash_digits_dash_digits in Em as [? ?].
      apply dash_digits_last_digits in Ed as [? ?].
      rewrite !py_int_digits by done. simpl. intros [= <-].
      rewrite Hstart. simpl. split; [|done]. right. right.
      rewrite !length_append, Hly, !zero_pad_2_length by (by apply digits_le_99).
      done.
    + destruct (Pat.dash_digits_last r1) as [m'|] eqn:Em'; simpl.
      * intros E. destruct (Hym m' eq_refl d E) as [Hl Hd].
        rewrite Hd. simpl. split; [auto|done].
      * intros [= <-]. rewrite Hy0. simpl. split; [left; done|done].
  - destruct (Pat.dash_digits_last r1) as [m'|] eqn:Em'; simpl.
    + intros E. destruct (Hym m' eq_refl d E) as [Hl Hd].
      rewrite Hd. simpl. split; [auto|done].
    + intros [= <-]. rewrite Hy0. simpl. split; [left; done|done].
Qed.

(** The first [n] characters of a text are at most [n] characters, each a
    character of the text. *)
Lemma take_points_count n l :
  (length (filter (λ c, negb (Str.is_cont c)) (Str.take_points n l)) ≤ n)%nat.
Proof.
  revert n. induction l as [|c l IH]; intros n; cbn [Str.take_points].
  - simpl. lia.
  - destruct (Str.is_cont c) eqn:Hc.
    + rewrite filter_cons_False by (rewrite Hc; cbn; intros []). apply IH.
    + destruct n as [|n]; [simpl; lia|].
      rewrite filter_cons_True by (rewrite Hc; cbn; exact I). simpl.
      specialize (IH n). lia.
Qed.

Lemma take_points_incl n l c : In c (Str.take_points n l) → In c l.
Proof.
  revert n. induction l as [|x l IH]; intros n; cbn [Str.take_points]; [done|].
  destruct (Str.is_cont x).
  - intros [<-|Hc]; [by left|right; by eapply IH].
  - destruct n as [|n]; [done|].
    intros [<-|Hc]; [by left|right; by eapply IH].
Qed.

Section More.
Context `{PyHost}.

(** X22: a currency code has at most three characters, and none of them is
    an ASCII lower-case letter. *)
Theorem normalize_currency_code v c :
  normalize_currency v = Some c →
  (Str.char_count c ≤ 3)%nat
  ∧ forallb (λ x, negb (Str.is_lower x)) (Str.chars c) = true.
Proof.
  unfold normalize_currency. destruct (negb _ || _); [done|].
  destruct (String.eqb _ "€"); [by intros [= <-]; vm_compute|].
  destruct (String.eqb _ "$"); [by intros [= <-]; vm_compute|].
  destruct (String.eqb _ "£"); [by intros [= <-]; vm_compute|].
  intros [= <-]. unfold Str.char_count, Str.prefix. rewrite chars_of_chars.
  split; [apply take_points_count|].
  apply forallb_forall. intros x Hx. apply take_points_incl in Hx.
  unfold Str.upper in Hx. rewrite chars_of_chars in Hx.
  apply in_map_iff in Hx as (x0 & <- & _).
  by rewrite upper_not_lower.
Qed.

(** X23: without Google records every Goodreads record goes through on its
    own: the rows are the deduplicated merges with the empty record, and
    every ledger row says [none]. *)
Theorem no_google_pass_through ts df_good df_gg :
  frame_empty df_gg = true →
  run_pipeline ts df_good df_gg
  = (deduplicate (map (λ g, merge_records g ∅) (to_records df_good)),
     map (λ g, {| detail_canonical_id := canonical_id (merge_records g ∅);
                  gb_id := gid_of g;
                  from_google := false;
                  merge_method := "none";
                  timestamp := ts |}) (to_records df_good)).
Proof.
  intros E. unfold run_pipeline.
  replace (to_records df_gg) with (@nil record)
    by (unfold to_records; by rewrite E).
  change (build_indexes []) with no_indexes.
  assert (∀ g, match_record no_indexes g = (None, "none")) as Hm.
  { intros g. unfold match_record, lookup_id, lookup_isbn, lookup_key, no_indexes.
    cbn [google_by_gbid google_by_isbn13 google_by_key].
    rewrite !lookup_empty.
    destruct (truthy_str (Some (gid_of g)));
      destruct (truthy_str (normalize_str _));
      destruct (truthy_str (key_title_author g)); reflexivity. }
  f_equal.
  - f_equal. rewrite map_map. apply map_ext. intros g.
    by rewrite process_row, Hm.
  - rewrite map_map. apply map_ext. intros g.
    by rewrite process_detail, process_row, Hm.
Qed.

End More.

(** ** The authors text, written and read *)

Lemma split_go_run sep cur p rest :
  forallb (λ c, negb (sep c)) p = true →
  Str.split_go sep cur (p ++ rest) = Str.split_go sep (rev p ++ cur) rest.
Proof.
  revert cur. induction p as [|c p IH]; intros cur Hp; [done|].
  simpl in Hp. apply andb_true_iff in Hp as [Hc Hp].
  cbn [app Str.split_go]. destruct (sep c); [done|].
  rewrite IH by done. simpl. by rewrite <- app_assoc.
Qed.

Lemma drop_while_spaces pre l :
  forallb Str.is_space pre = true →
  Str.drop_while Str.is_space (pre ++ l) = Str.drop_while Str.is_space l.
Proof.
  induction pre as [|c pre IH]; [done|]. simpl.
  intros [Hc Hp]%andb_true_iff. rewrite Hc. by apply IH.
Qed.

Lemma strip_padded pre post n :
  forallb Str.is_space pre = true → forallb Str.is_space post = true →
  Str.strip (Str.of_chars (pre ++ Str.chars n ++ post)) = Str.strip n.
Proof.
  intros Hpre Hpost. unfold Str.strip. rewrite chars_of_chars.
  rewrite drop_while_spaces by done.
  destruct (drop_while_suffix Str.is_space (Str.chars n)) as [p Hp].
  f_equal. f_equal.
  set (m := Str.drop_while Str.is_space (Str.chars n)).
  destruct m as [|c m'] eqn:Em.
  - (* only white space *)
    assert (∀ l, forallb Str.is_space l = true → Str.drop_while Str.is_space l = []) as Hall.
    { induction l as [|x l IH]; [done|]. simpl.
      intros [-> ?]%andb_true_iff. by apply IH. }
    assert (forallb Str.is_space (Str.chars n) = true) as Hn.
    { clear -Em. subst m. induction (Str.chars n) as [|x l IH]; [done|].
      simpl in *. destruct (Str.is_space x); [by apply IH|done]. }
    rewrite (Hall (Str.chars n ++ post)).
    + done.
    + rewrite forallb_app. by rewrite Hn, Hpost.
  - assert (Str.is_space c = false) as Hc
      by (by eapply (drop_while_head Str.is_space (Str.chars n))).
    assert (Str.drop_while Str.is_space (Str.chars n ++ post) = c :: m' ++ post) as ->.
    { clear -Em Hc. subst m. induction (Str.chars n) as [|x l IH]; [done|].
      simpl in *. destruct (Str.is_space x) eqn:Hx; [by apply IH|].
      injection Em as -> ->. done. }
    change (c :: m' ++ post) with ((c :: m') ++ post).
    rewrite rev_app_distr. apply drop_while_spaces.
    rewrite forallb_forall in *. intros x Hx. apply Hpost. by apply in_rev.
Qed.

Section RoundTrip.
Context `{PyHost}.

Lemma normalize_str_padded pre post n :
  forallb Str.is_space pre = true → forallb Str.is_space post = true →
  normalize_str (VStr (Str.of_chars (pre ++ Str.chars n ++ post)))
  = normalize_str (VStr n).
Proof.
  intros Hpre Hpost. rewrite !normalize_str_text. cbn [py_str].
  by rewrite strip_padded.
Qed.

Lemma author_piece_padded pre post n :
  forallb Str.is_space pre = true → forallb Str.is_space post = true →
  normalize_str (VStr n) = Some n →
  author_piece (Str.of_chars (pre ++ Str.chars n ++ post)) = Some n.
Proof.
  intros Hpre Hpost Hn. unfold author_piece.
  rewrite normalize_str_padded by done.
  by rewrite truthy_normalize_str, Hn.
Qed.

Lemma split_join_names cur names :
  cur = [] ∨ cur = [" "%char] →
  names ≠ [] →
  Forall (λ n, normalize_str (VStr n) = Some n ∧ plain_name n = true) names →
  omap author_piece (Str.split_go author_sep cur (Str.chars (Str.join " | " names)))
  = names.
Proof.
  intros Hcur Hne Hall. revert cur Hcur.
  induction Hall as [|n ns [Hn Hp] Hns IH]; intros cur Hcur; [done|].
  assert (forallb Str.is_space (rev cur) = true) as Hsp
    by (by destruct Hcur as [-> | ->]).
  destruct ns as [|m ms].
  - cbn [Str.join]. rewrite <- (app_nil_r (Str.chars n)).
    rewrite split_go_run by done. cbn [Str.split_go omap list_omap].
    rewrite rev_app_distr, rev_involutive.
    rewrite <- (app_nil_r (Str.chars n)).
    by rewrite author_piece_padded.
  - change (Str.join " | " (n :: m :: ms))
      with (n +:+ " | " +:+ Str.join " | " (m :: ms)).
    rewrite !chars_append. rewrite split_go_run by done.
    change (Str.chars " | ") with [" "%char; "|"%char; " "%char].
    cbn [app Str.split_go].
    change (author_sep " ") with false. change (author_sep "|") with true.
    cbn iota. cbn [omap list_omap].
    change (" "%char :: rev (Str.chars n) ++ cur)
      with ([" "%char] ++ rev (Str.chars n) ++ cur).
    rewrite !rev_app_distr, rev_involutive, <- app_assoc.
    rewrite author_piece_padded by done.
    cbn [Str.split_go]. change (author_sep " ") with false. cbn iota.
    f_equal. apply IH; [done|by right].
Qed.

(** X24: the authors text is read back as it was written: names joined with
    [" | "] come back from [normalize_author] one by one, when each is
    normalized and has no separator in it. *)
Theorem authors_text_round_trip names :
  Forall (λ n, normalize_str (VStr n) = Some n ∧ plain_name n = true) names →
  normalize_author (VStr (Str.join " | " names)) = names.
Proof.
  intros Hall. destruct names as [|n ns] eqn:E; [done|]. rewrite <- E in *.
  assert (Str.join " | " names ≠ "") as Hj.
  { subst names. apply Forall_cons in Hall as [[Hn _] _].
    apply normalize_str_nonempty in Hn.
    destruct ns; cbn [Str.join]; [done|]. by destruct n. }
  unfold normalize_author. cbn [truthy is_float].
  destruct (String.eqb_spec (Str.join " | " names) "") as [|_]; [done|].
  cbn [negb orb]. unfold Str.split_on.
  apply (split_join_names [] names); [by left|by subst names|done].
Qed.

End RoundTrip.

(** ** Instances of the properties that have a hypothesis *)

Lemma normalize_str_canonical_ws_witness :
  @normalize_str Ref.host (VStr "  The   Hobbit ") = Some "The Hobbit"
  ∧ canonical_ws "The Hobbit" = true.
Proof.
  assert (@normalize_str Ref.host (VStr "  The   Hobbit ") = Some "The Hobbit")
    as Hn by (vm_compute; reflexivity).
  split; [exact Hn|].
  exact (@normalize_str_canonical_ws Ref.host _ _ Hn).
Defined.

Lemma normalize_str_idempotent_witness :
  @normalize_str Ref.host (VStr " 12   Rules. ") = Some "12 Rules."
  ∧ @normalize_str Ref.host (VStr "12 Rules.") = Some "12 Rules.".
Proof.
  assert (@normalize_str Ref.host (VStr " 12   Rules. ") = Some "12 Rules.")
    as Hn by (vm_compute; reflexivity).
  split; [exact Hn|].
  exact (@normalize_str_idempotent Ref.host _ _ Hn).
Defined.

Lemma normalize_str_float_artifact_witness :
  @normalize_str Ref.host (VStr "9780000000001.0") = Some "9780000000001"
  ∧ @normalize_str Ref.host (VStr "9780000000001") = Some "9780000000001".
Proof.
  apply (@normalize_str_float_artifact Ref.host "9780000000001").
  vm_compute. reflexivity.
Defined.

Lemma normalize_title_chars_witness :
  @normalize_title Ref.host (VStr "  The Hobbit: café & Müller ")
  = Some "the hobbit café müller"
  ∧ forallb (λ c, negb (Str.is_ascii c) || key_char c)
      (Str.chars "the hobbit café müller") = true.
Proof.
  assert (@normalize_title Ref.host (VStr "  The Hobbit: café & Müller ")
          = Some "the hobbit café müller") as Hk by (vm_compute; reflexivity).
  split; [exact Hk|].
  exact (@normalize_title_chars Ref.host _ _ Hk).
Defined.

Lemma normalize_author_normalized_witness :
  "Jane" ≠ "" ∧ @normalize_str Ref.host (VStr "Jane") = Some "Jane".
Proof.
  apply (@normalize_author_normalized Ref.host (VStr "Doe, Jane; Roe")).
  change (@normalize_author Ref.host (VStr "Doe, Jane; Roe"))
    with ["Doe"; "Jane"; "Roe"].
  right. left.
Defined.

Lemma pub_year_bounds_witness :
  0 ≤ 1999 ≤ 9999 ∧ pub_date (@merge_records Ref.host Sample.g_book ∅) ≠ None.
Proof.
  apply (@pub_year_bounds Ref.host Sample.g_book ∅ 1999).
  vm_compute. reflexivity.
Defined.

Lemma first_author_primary_witness :
  first_author (@merge_records Ref.host Sample.g_book Sample.gg_by_key) = Some "A B"
  ∧ @get_first_author Ref.host (get Sample.g_book "authors") = "A B".
Proof.
  apply (@first_author_primary Ref.host Sample.g_book Sample.gg_by_key "A B" []).
  vm_compute. reflexivity.
Defined.

Lemma match_record_sound_witness :
  Sample.gg_by_id ∈ to_records [Sample.gg_by_id; Sample.gg_by_isbn; Sample.gg_by_key]
  ∧ truthy_dict Sample.gg_by_id = true.
Proof.
  destruct (@match_record_sound Ref.host
              (to_records [Sample.gg_by_id; Sample.gg_by_isbn; Sample.gg_by_key])
              Sample.g_42 Sample.gg_by_id "id") as (Hin & Ht & _).
  - vm_compute. reflexivity.
  - split; [exact Hin|exact Ht].
Defined.

Lemma isbn_match_identity_witness :
  isbn13 (@process Ref.host Fixture.clock
            (@build_indexes Ref.host [Sample.gg_by_isbn]) Sample.g_42).1
  = Some (canonical_id
            (@process Ref.host Fixture.clock
               (@build_indexes Ref.host [Sample.gg_by_isbn]) Sample.g_42).1).
Proof.
  apply (@isbn_match_identity Ref.host Fixture.clock [Sample.gg_by_isbn] Sample.g_42).
  vm_compute. reflexivity.
Defined.

Lemma gg_not_found_only_identifiers : only_identifiers Fixture.gg_not_found.
Proof.
  intros k Hgb Hgo. unfold get, Fixture.gg_not_found, Sample.dict.
  cbn [list_to_map foldr uncurry].
  rewrite lookup_insert_ne by done. rewrite lookup_insert_ne by done.
  by rewrite lookup_empty.
Defined.

Lemma identifiers_only_match_witness :
  from_google
    (@process Ref.host Fixture.clock
       (@build_indexes Ref.host [Fixture.gg_not_found]) Sample.g_42).2 = true
  ∧ (@process Ref.host Fixture.clock
       (@build_indexes Ref.host [Fixture.gg_not_found]) Sample.g_42).1
    = @merge_records Ref.host Sample.g_42 ∅.
Proof.
  destruct (@identifiers_only_match Ref.host Fixture.clock
              (@build_indexes Ref.host [Fixture.gg_not_found]) Sample.g_42
              Fixture.gg_not_found) as (Hf & _ & _ & Hsame).
  - vm_compute. reflexivity.
  - vm_compute. reflexivity.
  - exact gg_not_found_only_identifiers.
  - split; [exact Hf|]. apply Hsame. vm_compute. reflexivity.
Defined.

Lemma ledger_and_rows_witness :
  map gb_id (@run_pipeline Ref.host Fixture.clock Fixture.df_good Fixture.df_gg).2
  = map (@gid_of Ref.host) (to_records Fixture.df_good)
  ∧ length (@run_pipeline Ref.host Fixture.clock Fixture.df_good Fixture.df_gg).1
    = 2%nat.
Proof.
  destruct (@ledger_and_rows Ref.host ref_host_sorts
              Fixture.clock Fixture.df_good Fixture.df_gg) as (Hids & _ & _).
  split; [exact Hids|]. vm_compute. reflexivity.
Defined.

Lemma metrics_add_up_witness :
  Z.of_nat (rows_output (@run_metrics Ref.host Fixture.clock Fixture.df_good Fixture.df_gg))
  + duplicates_removed (@run_metrics Ref.host Fixture.clock Fixture.df_good Fixture.df_gg)
  = 4.
Proof.
  destruct (@metrics_add_up Ref.host ref_host_sorts
              Fixture.clock Fixture.df_good Fixture.df_gg) as (_ & Hsum & _).
  rewrite Hsum. vm_compute. reflexivity.
Defined.

Lemma iso_date_patterns_shape_witness :
  (String.length "2020-05-01" = 4%nat ∨ String.length "2020-05-01" = 7%nat
   ∨ String.length "2020-05-01" = 10%nat)
  ∧ Pat.y "2020-05-01" = Pat.y "2020-5-1" ∧ Pat.y "2020-05-01" ≠ None.
Proof.
  apply (iso_date_patterns_shape "2020-5-1" "2020-05-01").
  vm_compute. reflexivity.
Defined.

Lemma normalize_currency_code_witness :
  @normalize_currency Ref.host (VStr "€ 10 eur") = Some "€ 1"
  ∧ (Str.char_count "€ 1" ≤ 3)%nat
  ∧ forallb (λ x, negb (Str.is_lower x)) (Str.chars "€ 1") = true.
Proof.
  assert (@normalize_currency Ref.host (VStr "€ 10 eur") = Some "€ 1")
    as Hc by (vm_compute; reflexivity).
  split; [exact Hc|].
  exact (@normalize_currency_code Ref.host _ _ Hc).
Defined.

Lemma no_google_pass_through_witness :
  (@run_pipeline Ref.host Fixture.clock Fixture.df_good []).2
  = map (λ g, {| detail_canonical_id := canonical_id (@merge_records Ref.host g ∅);
                 gb_id := @gid_of Ref.host g;
                 from_google := false;
                 merge_method := "none";
                 timestamp := Fixture.clock |}) (to_records Fixture.df_good).
Proof.
  rewrite (@no_google_pass_through Ref.host Fixture.clock Fixture.df_good []).
  - reflexivity.
  - vm_compute. reflexivity.
Defined.

Lemma authors_text_round_trip_witness :
  @normalize_author Ref.host (VStr "Jane Doe | John Roe") = ["Jane Doe"; "John Roe"].
Proof.
  apply (@authors_text_round_trip Ref.host ["Jane Doe"; "John Roe"]).
  repeat constructor; vm_compute; reflexivity.
Defined.
